(** * photobooth.py: the button-driven photobooth controller

    A shallow embedding of [src/photobooth.py].  The module keeps its whole
    state in globals and reaches the outside world through [subprocess],
    [OPi.GPIO] and [print]; here the globals are the fields of one record
    [world], the operating-system side (process table, everything written
    to the outside) lives in the same record, and every Python function is
    a computation in a state-and-exception monad over it.

    Conventions of the model:
    - durations are Python floats in the source ([time.time()] deltas);
      they are exact rationals [Q] here, so no rounding is modelled;
    - [button_event] is run by the GPIO library between two calls of
      [update]; calls are sequential, never interleaved;
    - [Popen.wait] returns, i.e. a process that was sent SIGTERM exits. *)

From Stdlib Require Import ZArith QArith Qround Lqa Lia Bool String Ascii.
From Stdlib Require Import DecimalString DecimalNat.
From stdpp Require Import base tactics option list.

Local Open Scope string_scope.
Local Open Scope Q_scope.

(** ** Python values used by the module *)

(** [class States(Enum)] *)
Inductive States : Type := IDLE | COUNTDOWN | PRINT_CHECK | SLEEP.

Definition States_eqb (a b : States) : bool :=
  match a, b with
  | IDLE, IDLE | COUNTDOWN, COUNTDOWN
  | PRINT_CHECK, PRINT_CHECK | SLEEP, SLEEP => true
  | _, _ => false
  end.

(** [x in (a, b, ...)] on enum members *)
Definition in_tuple (x : States) (t : list States) : bool :=
  existsb (States_eqb x) t.

(** The exceptions the module can raise. *)
Inductive exn : Type :=
| RuntimeError (msg : string)
| AttributeError              (* a method called on [None] *)
| TypeError                   (* [None] inside an argument vector *)
| CalledProcessError (returncode : Z).

(** [class LED]: the pin and the cached level. *)
Record LED : Type := mkLED { pin : Z; is_on : bool }.

(** ** The outside world *)

(** Process identifiers: positions in the process table. *)
Abbreviation pid := nat (only parsing).

(** What a spawned process runs.  [argv] gives the command line. *)
Inductive job : Type :=
| VideoCapture                 (* gphoto2 --stdout --capture-movie *)
| VideoRender (source : pid)   (* ffmpeg reading the pipe of [source] *)
| PhotoPreview (path : string) (* feh -F path *).

Definition photo_argv (photo_path : string) : list string :=
  ["gphoto2"; "--capture-image-and-download"; "--filename"; photo_path].

Definition argv (j : job) : list string :=
  match j with
  | VideoCapture => ["gphoto2"; "--stdout"; "--capture-movie"]
  | VideoRender _ =>
      ["ffmpeg"; "-i"; "pipe:"; "-pix_fmt"; "yuv420p"; "-tune"; "zerolatency";
       "-preset"; "ultrafast"; "-f"; "sdl"; "-window_fullscreen"; "1"; "Video"]
  | PhotoPreview path => ["feh"; "-F"; path]
  end.

(** An entry of the process table; [exited] is what [Popen.poll()] sees
    ([poll()] is [None] exactly while [exited = false]). *)
Record process : Type := mkProcess { cmd : job; exited : bool }.

Inductive gpio_call : Type :=
| Setboard | Setmode
| SetupOut (pin : Z) | SetupInPullUp (pin : Z)
| Output (pin : Z) (level : Z)
| AddEventDetectFalling (pin : Z) (bouncetime : Z).

(** Everything the program does to the outside, in the order it does it. *)
Inductive effect : Type :=
| EPopen (p : pid) (j : job)           (* subprocess.Popen(argv j) *)
| ETerminate (p : pid)                 (* Popen.terminate() *)
| EWait (p : pid)                      (* Popen.wait() *)
| ECheckCall (args : list string)      (* subprocess.check_call *)
| EStdout (line : string)              (* print(...) *)
| EPrintRequest (path : option string) (* print_photo entered with [path] *)
| EGpio (c : gpio_call).

(** The module globals, then the process table and the effect log. *)
Record world : Type := mkWorld {
  BUTTON_LED : option LED;
  CURRENT_STATE : States;
  TOTAL_TIME : Q;
  STATE_START : Q;
  CURRENT_PHOTO_PATH : option string;
  VIDEO_FEED_POPEN : option pid;
  PHOTO_PREVIEW_POPEN : option pid;
  procs : list process;
  trace : list effect
}.

Definition set_BUTTON_LED (v : option LED) (w : world) : world :=
  mkWorld v (CURRENT_STATE w) (TOTAL_TIME w) (STATE_START w)
    (CURRENT_PHOTO_PATH w) (VIDEO_FEED_POPEN w) (PHOTO_PREVIEW_POPEN w)
    (procs w) (trace w).
Definition set_CURRENT_STATE (v : States) (w : world) : world :=
  mkWorld (BUTTON_LED w) v (TOTAL_TIME w) (STATE_START w)
    (CURRENT_PHOTO_PATH w) (VIDEO_FEED_POPEN w) (PHOTO_PREVIEW_POPEN w)
    (procs w) (trace w).
Definition set_TOTAL_TIME (v : Q) (w : world) : world :=
  mkWorld (BUTTON_LED w) (CURRENT_STATE w) v (STATE_START w)
    (CURRENT_PHOTO_PATH w) (VIDEO_FEED_POPEN w) (PHOTO_PREVIEW_POPEN w)
    (procs w) (trace w).
Definition set_STATE_START (v : Q) (w : world) : world :=
  mkWorld (BUTTON_LED w) (CURRENT_STATE w) (TOTAL_TIME w) v
    (CURRENT_PHOTO_PATH w) (VIDEO_FEED_POPEN w) (PHOTO_PREVIEW_POPEN w)
    (procs w) (trace w).
Definition set_CURRENT_PHOTO_PATH (v : option string) (w : world) : world :=
  mkWorld (BUTTON_LED w) (CURRENT_STATE w) (TOTAL_TIME w) (STATE_START w)
    v (VIDEO_FEED_POPEN w) (PHOTO_PREVIEW_POPEN w) (procs w) (trace w).
Definition set_VIDEO_FEED_POPEN (v : option pid) (w : world) : world :=
  mkWorld (BUTTON_LED w) (CURRENT_STATE w) (TOTAL_TIME w) (STATE_START w)
    (CURRENT_PHOTO_PATH w) v (PHOTO_PREVIEW_POPEN w) (procs w) (trace w).
Definition set_PHOTO_PREVIEW_POPEN (v : option pid) (w : world) : world :=
  mkWorld (BUTTON_LED w) (CURRENT_STATE w) (TOTAL_TIME w) (STATE_START w)
    (CURRENT_PHOTO_PATH w) (VIDEO_FEED_POPEN w) v (procs w) (trace w).
Definition set_procs (v : list process) (w : world) : world :=
  mkWorld (BUTTON_LED w) (CURRENT_STATE w) (TOTAL_TIME w) (STATE_START w)
    (CURRENT_PHOTO_PATH w) (VIDEO_FEED_POPEN w) (PHOTO_PREVIEW_POPEN w)
    v (trace w).
Definition set_trace (v : list effect) (w : world) : world :=
  mkWorld (BUTTON_LED w) (CURRENT_STATE w) (TOTAL_TIME w) (STATE_START w)
    (CURRENT_PHOTO_PATH w) (VIDEO_FEED_POPEN w) (PHOTO_PREVIEW_POPEN w)
    (procs w) v.

(** ** The monad: state over [world], with Python exceptions *)

Inductive outcome (A : Type) : Type :=
| Returned (a : A) (w : world)
| Raised (e : exn) (w : world).
Arguments Returned {A} a w.
Arguments Raised {A} e w.

Definition M (A : Type) : Type := world -> outcome A.

Definition ret {A} (a : A) : M A := fun w => Returned a w.
Definition bind {A B} (m : M A) (k : A -> M B) : M B :=
  fun w => match m w with
           | Returned a w' => k a w'
           | Raised e w' => Raised e w'
           end.
Definition raise {A} (e : exn) : M A := fun w => Raised e w.
Definition gets {A} (f : world -> A) : M A := fun w => Returned (f w) w.
Definition modify (f : world -> world) : M unit := fun w => Returned tt (f w).

Declare Scope py_scope.
Delimit Scope py_scope with py.
Notation "x <- m ; k" := (bind m (fun x => k))
  (at level 20, m at level 100, k at level 200, only parsing) : py_scope.
Notation "m ;; k" := (bind m (fun _ => k))
  (at level 100, k at level 200, only parsing, right associativity) : py_scope.
Local Open Scope py_scope.

(** The world an outcome ends in, returned or raised. *)
Definition world_of {A} (o : outcome A) : world :=
  match o with Returned _ w => w | Raised _ w => w end.

Definition raises {A} (o : outcome A) : bool :=
  match o with Returned _ _ => false | Raised _ _ => true end.

(** [obj.method()] when [obj] may be [None] *)
Definition deref {A} (o : option A) : M A :=
  match o with Some a => ret a | None => raise AttributeError end.

Definition emit (e : effect) : M unit :=
  modify (fun w => set_trace (trace w ++ [e]) w).

(** ** Primitives of [subprocess], [print] and [OPi.GPIO] *)

(** [subprocess.Popen(argv j)]: a new entry of the process table. *)
Definition Popen (j : job) : M pid :=
  p <- gets (fun w => length (procs w)) ;
  modify (fun w => set_procs (procs w ++ [mkProcess j false]) w) ;;
  emit (EPopen p j) ;;
  ret p.

Definition mark_exited (p : pid) (ps : list process) : list process :=
  match ps !! p with
  | Some pr => <[p := mkProcess (cmd pr) true]> ps
  | None => ps
  end.

Definition terminate (p : pid) : M unit := emit (ETerminate p).

(** [wait] returns once the process is gone. *)
Definition wait (p : pid) : M unit :=
  modify (fun w => set_procs (mark_exited p (procs w)) w) ;;
  emit (EWait p).

(** [Popen.poll() is not None] *)
Definition has_exited (p : pid) : M bool :=
  gets (fun w => match procs w !! p with
                 | Some pr => exited pr
                 | None => true
                 end).

Definition check_call (args : list string) (returncode : Z) : M unit :=
  emit (ECheckCall args) ;;
  if (returncode =? 0)%Z then ret tt else raise (CalledProcessError returncode).

Definition print (line : string) : M unit := emit (EStdout line).

Definition GPIO (c : gpio_call) : M unit := emit (EGpio c).

(** ** The module *)

Definition LED_init (pin : Z) : M LED :=
  GPIO (SetupOut pin) ;;
  GPIO (Output pin 0) ;;
  ret (mkLED pin false).

Definition LED_on : M unit :=
  self <- bind (gets BUTTON_LED) deref ;
  if negb (is_on self) then
    modify (set_BUTTON_LED (Some (mkLED (pin self) true))) ;;
    GPIO (Output (pin self) 1)
  else ret tt.

Definition LED_off : M unit :=
  self <- bind (gets BUTTON_LED) deref ;
  if is_on self then
    modify (set_BUTTON_LED (Some (mkLED (pin self) false))) ;;
    GPIO (Output (pin self) 0)
  else ret tt.

Definition BOUNCETIME : Z := 200.
Definition BLINK_PERIOD : Q := 1.
Definition COUNTDOWN_DURATION : Q := 8.
Definition PRINT_CHECK_DURATION : Q := 10.
Definition TIME_BEFORE_SLEEP : Q := 30.
Definition PIN_LED_BUTTON : Z := 7.
Definition PIN_BUTTON : Z := 15.
Definition PIN_SEG_DISPLAY : list (string * Z) :=
  [("A", 16); ("B", 18); ("C", 22); ("D", 26);
   ("E", 29); ("F", 31); ("G", 32); ("H", 33)]%Z.

(** The globals as the module body leaves them, nothing spawned yet. *)
Definition module_globals : world :=
  mkWorld None SLEEP 0 0 None None None [] [].

Definition kill_video_feed : M unit :=
  p <- bind (gets VIDEO_FEED_POPEN) deref ;
  terminate p ;;
  wait p.

Definition start_video_feed : M unit :=
  p <- Popen VideoCapture ;
  modify (set_VIDEO_FEED_POPEN (Some p)) ;;
  _ <- Popen (VideoRender p) ;
  ret tt.

Definition kill_photo_preview : M unit :=
  p <- bind (gets PHOTO_PREVIEW_POPEN) deref ;
  terminate p ;;
  wait p.

Definition start_photo_preview (path : option string) : M unit :=
  match path with
  | Some s =>
      p <- Popen (PhotoPreview s) ;
      modify (set_PHOTO_PREVIEW_POPEN (Some p))
  | None => raise TypeError
  end.

(** What [take_photo] reads from its surroundings: [time.localtime()] and
    the exit status of the gphoto2 capture it waits for. *)
Record capture_env : Type := mkCaptureEnv {
  tm_mday : nat; tm_hour : nat; tm_min : nat; tm_sec : nat;
  gphoto2_returncode : Z
}.

(** ["{}".format(n)] *)
Definition str (n : nat) : string := NilEmpty.string_of_uint (Nat.to_uint n).

(** ["{}-{}_{}_{}.jpg".format(tm_mday, tm_hour, tm_min, tm_sec)] *)
Definition photo_name (env : capture_env) : string :=
  str (tm_mday env) ++ "-" ++ str (tm_hour env) ++ "_" ++
  str (tm_min env) ++ "_" ++ str (tm_sec env) ++ ".jpg".

Definition take_photo (env : capture_env) : M string :=
  let photo_path := photo_name env in
  check_call (photo_argv photo_path) (gphoto2_returncode env) ;;
  print ("took photo as " ++ photo_path ++ ".") ;;
  ret photo_path.

(** The body only prints; the request is logged on entry so that the
    argument of the call can be observed. *)
Definition print_photo (path : option string) : M unit :=
  emit (EPrintRequest path) ;;
  print "TODO PRINT PHOTO".

Definition button_event (_channel : Z) : M unit :=
  st <- gets CURRENT_STATE ;
  match st with
  | SLEEP =>
      start_video_feed ;;
      modify (fun w => set_STATE_START (TOTAL_TIME w) w) ;;
      modify (set_CURRENT_STATE IDLE)
  | IDLE =>
      modify (fun w => set_STATE_START (TOTAL_TIME w) w) ;;
      modify (set_CURRENT_STATE COUNTDOWN)
  | PRINT_CHECK =>
      kill_photo_preview ;;
      start_video_feed ;;
      modify (set_CURRENT_STATE IDLE) ;;
      modify (fun w => set_STATE_START (TOTAL_TIME w) w)
  | COUNTDOWN => ret tt
  end.

Definition init_board : M unit :=
  GPIO Setboard ;;
  GPIO Setmode ;;
  led <- LED_init PIN_LED_BUTTON ;
  modify (set_BUTTON_LED (Some led)) ;;
  GPIO (SetupInPullUp PIN_BUTTON) ;;
  fold_right (fun kv k => GPIO (SetupOut (snd kv)) ;; k) (ret tt)
    PIN_SEG_DISPLAY ;;
  GPIO (AddEventDetectFalling PIN_BUTTON BOUNCETIME).

(** [a > b] on durations *)
Definition Qgtb (a b : Q) : bool := negb (Qle_bool a b).

(** [x % y] for [y > 0]: the remainder has the sign of the divisor. *)
Definition py_mod (x y : Q) : Q := x - inject_Z (Qfloor (x / y)) * y.

Definition elapsed_in_state (w : world) : Q := TOTAL_TIME w - STATE_START w.

Definition update (dt : Q) (env : capture_env) : M unit :=
  modify (fun w => set_TOTAL_TIME (TOTAL_TIME w + dt) w) ;;
  st <- gets CURRENT_STATE ;
  elapsed <- gets elapsed_in_state ;
  match st with
  | COUNTDOWN =>
      if Qgtb elapsed COUNTDOWN_DURATION then
        kill_video_feed ;;
        photo <- take_photo env ;
        modify (set_CURRENT_PHOTO_PATH (Some photo)) ;;
        path <- gets CURRENT_PHOTO_PATH ;
        start_photo_preview path ;;
        modify (fun w => set_STATE_START (TOTAL_TIME w) w) ;;
        modify (set_CURRENT_STATE PRINT_CHECK)
      else ret tt
  | PRINT_CHECK =>
      if Qgtb elapsed PRINT_CHECK_DURATION then
        kill_photo_preview ;;
        path <- gets CURRENT_PHOTO_PATH ;
        print_photo path ;;
        start_video_feed ;;
        modify (fun w => set_STATE_START (TOTAL_TIME w) w) ;;
        modify (set_CURRENT_STATE IDLE)
      else ret tt
  | IDLE =>
      if Qgtb elapsed TIME_BEFORE_SLEEP then
        kill_video_feed ;;
        modify (fun w => set_STATE_START (TOTAL_TIME w) w) ;;
        modify (set_CURRENT_STATE SLEEP)
      else
        p <- bind (gets VIDEO_FEED_POPEN) deref ;
        dead <- has_exited p ;
        if dead then raise (RuntimeError "Videofeed died unexpectedly.")
        else ret tt
  | SLEEP => ret tt
  end ;;
  st <- gets CURRENT_STATE ;
  if in_tuple st [SLEEP] then
    t <- gets TOTAL_TIME ;
    if Qgtb (py_mod t BLINK_PERIOD) (BLINK_PERIOD / 2) then LED_on
    else LED_off
  else if in_tuple st [IDLE; PRINT_CHECK] then LED_on
  else LED_off.

(** ** Runs of the program *)

(** What happens to the controller: [main] calls [update] with the time
    since the last call; the GPIO library calls [button_event] on a falling
    edge; and any spawned process may exit by itself. *)
Inductive event : Type :=
| Tick (dt : Q) (env : capture_env)
| Press
| ProcessExit (p : pid).

Definition process_exit (p : pid) : M unit :=
  modify (fun w => set_procs (mark_exited p (procs w)) w).

Definition step (e : event) : M unit :=
  match e with
  | Tick dt env => update dt env
  | Press => button_event PIN_BUTTON
  | ProcessExit p => process_exit p
  end.

Fixpoint run (evs : list event) : M unit :=
  match evs with
  | [] => ret tt
  | e :: evs' => step e ;; run evs'
  end.

(** [main]: [init_board()], then the events in turn; an exception ends
    the run. *)
Definition main (evs : list event) : outcome unit :=
  (init_board ;; run evs) module_globals.

(** The world [init_board()] leaves behind. *)
Definition boot : world := world_of (init_board module_globals).

Definition reachable (w : world) : Prop :=
  exists evs, main evs = Returned tt w.

(** ** Observations *)

Definition is_feed (j : job) : bool :=
  match j with VideoCapture => true | _ => false end.
Definition is_preview (j : job) : bool :=
  match j with PhotoPreview _ => true | _ => false end.

(** A process of the given kind that has not exited. *)
Definition live (kind : job -> bool) (pr : process) : bool :=
  kind (cmd pr) && negb (exited pr).

Definition video_feed_active (w : world) : bool :=
  existsb (live is_feed) (procs w).
Definition photo_preview_active (w : world) : bool :=
  existsb (live is_preview) (procs w).

Definition exclusive (w : world) : bool :=
  negb (video_feed_active w && photo_preview_active w).

(** The lamp, as the [LED] object caches it. *)
Definition lamp (w : world) : option bool := is_on <$> BUTTON_LED w.

(** The effects a call added to the log. *)
Definition emitted (w w' : world) : list effect :=
  drop (length (trace w)) (trace w').

(** ** The three parts of [update], named

    [update] is one function in the source; its body is an assignment, an
    [if]/[elif] chain on the state, and a second chain for the lamp. *)

(** [TOTAL_TIME += dt] *)
Definition accumulate (dt : Q) : M unit :=
  modify (fun w => set_TOTAL_TIME (TOTAL_TIME w + dt) w).

(** The chain on [CURRENT_STATE]: the timed transitions and the liveness
    check of the feed. *)
Definition transition (env : capture_env) : M unit :=
  st <- gets CURRENT_STATE ;
  elapsed <- gets elapsed_in_state ;
  match st with
  | COUNTDOWN =>
      if Qgtb elapsed COUNTDOWN_DURATION then
        kill_video_feed ;;
        photo <- take_photo env ;
        modify (set_CURRENT_PHOTO_PATH (Some photo)) ;;
        path <- gets CURRENT_PHOTO_PATH ;
        start_photo_preview path ;;
        modify (fun w => set_STATE_START (TOTAL_TIME w) w) ;;
        modify (set_CURRENT_STATE PRINT_CHECK)
      else ret tt
  | PRINT_CHECK =>
      if Qgtb elapsed PRINT_CHECK_DURATION then
        kill_photo_preview ;;
        path <- gets CURRENT_PHOTO_PATH ;
        print_photo path ;;
        start_video_feed ;;
        modify (fun w => set_STATE_START (TOTAL_TIME w) w) ;;
        modify (set_CURRENT_STATE IDLE)
      else ret tt
  | IDLE =>
      if Qgtb elapsed TIME_BEFORE_SLEEP then
        kill_video_feed ;;
        modify (fun w => set_STATE_START (TOTAL_TIME w) w) ;;
        modify (set_CURRENT_STATE SLEEP)
      else
        p <- bind (gets VIDEO_FEED_POPEN) deref ;
        dead <- has_exited p ;
        if dead then raise (RuntimeError "Videofeed died unexpectedly.")
        else ret tt
  | SLEEP => ret tt
  end.

(** The chain for the button light. *)
Definition indicator : M unit :=
  st <- gets CURRENT_STATE ;
  if in_tuple st [SLEEP] then
    t <- gets TOTAL_TIME ;
    if Qgtb (py_mod t BLINK_PERIOD) (BLINK_PERIOD / 2) then LED_on
    else LED_off
  else if in_tuple st [IDLE; PRINT_CHECK] then LED_on
  else LED_off.

(** The lamp the indicator asks for, as a function of state and time. *)
Definition lamp_policy (st : States) (total : Q) : bool :=
  match st with
  | SLEEP => Qgtb (py_mod total BLINK_PERIOD) (BLINK_PERIOD / 2)
  | IDLE | PRINT_CHECK => true
  | COUNTDOWN => false
  end.

(** The world after [BUTTON_LED.on()] ([b = true]) or [BUTTON_LED.off()]
    ([b = false]): the pin is written only when the cached level differs. *)
Definition light (b : bool) (w : world) : world :=
  match BUTTON_LED w with
  | Some led =>
      if Bool.eqb (is_on led) b then w
      else set_trace
             (trace w ++ [EGpio (Output (pin led) (if b then 1 else 0)%Z)])
             (set_BUTTON_LED (Some (mkLED (pin led) b)) w)
  | None => w
  end.

(** What [light] writes to the pin. *)
Definition lamp_effects (b : bool) (w : world) : list effect :=
  match BUTTON_LED w with
  | Some led =>
      if Bool.eqb (is_on led) b then []
      else [EGpio (Output (pin led) (if b then 1 else 0)%Z)]
  | None => []
  end.

(** The world after [terminate(); wait()] on process [p]. *)
Definition killed (p : pid) (w : world) : world :=
  set_trace (trace w ++ [ETerminate p; EWait p])
    (set_procs (mark_exited p (procs w)) w).

(** The world after [subprocess.Popen(argv j)]. *)
Definition spawned (j : job) (w : world) : world :=
  set_trace (trace w ++ [EPopen (length (procs w)) j])
    (set_procs (procs w ++ [mkProcess j false]) w).

(** The world after [start_video_feed()]. *)
Definition feed_started (w : world) : world :=
  spawned (VideoRender (length (procs w)))
    (set_VIDEO_FEED_POPEN (Some (length (procs w))) (spawned VideoCapture w)).

(** The world after a successful [take_photo()]. *)
Definition photographed (env : capture_env) (w : world) : world :=
  set_trace (trace w ++ [ECheckCall (photo_argv (photo_name env));
                         EStdout ("took photo as " ++ photo_name env ++ ".")])
    w.

(** The world after [start_photo_preview(path)]. *)
Definition preview_started (path : string) (w : world) : world :=
  set_PHOTO_PREVIEW_POPEN (Some (length (procs w)))
    (spawned (PhotoPreview path) w).

(** The world after [print_photo(path)]. *)
Definition print_requested (path : option string) (w : world) : world :=
  set_trace (trace w ++ [EPrintRequest path; EStdout "TODO PRINT PHOTO"]) w.

Definition timer_reset (w : world) : world := set_STATE_START (TOTAL_TIME w) w.

(** The world after [TOTAL_TIME += dt]. *)
Definition ticked (dt : Q) (w : world) : world :=
  set_TOTAL_TIME (TOTAL_TIME w + dt) w.

(** ** The tick of the specification

    The specification gives the controller as a transition table and says
    of [tick(dt)] that it first accumulates the total, then evaluates the
    row of the current state on [total_elapsed - state_entered_at], then
    recomputes the indicator, whether or not a transition fired.  What
    follows is that description, written from the table and not from
    [update]; the two are compared below. *)









(** ** The invariant of the supervisor *)

(** Every live process of the kind sits behind the handle [h]. *)
Definition sole (kind : job -> bool) (h : option pid) (ps : list process)
  : Prop :=
  forall i pr, ps !! i = Some pr -> live kind pr = true -> h = Some i.

(** No process of the kind is live. *)
Definition quiet (kind : job -> bool) (ps : list process) : Prop :=
  forall i pr, ps !! i = Some pr -> live kind pr = false.

(** The handle refers to a process of the kind. *)
Definition holds (kind : job -> bool) (h : option pid) (ps : list process)
  : Prop :=
  exists p pr, h = Some p /\ ps !! p = Some pr /\ kind (cmd pr) = true.

Definition supervised (w : world) : Prop :=
  match CURRENT_STATE w with
  | SLEEP => quiet is_feed (procs w) /\ quiet is_preview (procs w)
  | IDLE | COUNTDOWN =>
      holds is_feed (VIDEO_FEED_POPEN w) (procs w) /\
      sole is_feed (VIDEO_FEED_POPEN w) (procs w) /\
      quiet is_preview (procs w)
  | PRINT_CHECK =>
      holds is_preview (PHOTO_PREVIEW_POPEN w) (procs w) /\
      sole is_preview (PHOTO_PREVIEW_POPEN w) (procs w) /\
      quiet is_feed (procs w) /\
      is_Some (CURRENT_PHOTO_PATH w)
  end.

Definition inv (w : world) : Prop :=
  is_Some (BUTTON_LED w) /\ supervised w.

(** Ticks that do not go back in time. *)
Definition nonneg_tick (e : event) : bool :=
  match e with
  | Tick dt _ => Qle_bool 0 dt
  | Press | ProcessExit _ => true
  end.

(** The events during which a countdown entered at [start] stays pending:
    no tick among them brings the elapsed time above the duration. *)
Fixpoint countdown_pending (total start : Q) (evs : list event) : bool :=
  match evs with
  | [] => true
  | Tick dt _ :: evs' =>
      Qle_bool (total + dt - start) COUNTDOWN_DURATION
      && countdown_pending (total + dt) start evs'
  | _ :: evs' => countdown_pending total start evs'
  end.

Definition is_gpio (e : effect) : bool :=
  match e with EGpio _ => true | _ => false end.

Definition is_capture (e : effect) : bool :=
  match e with ECheckCall _ => true | _ => false end.

Definition spawns_feed (e : effect) : bool :=
  match e with EPopen _ VideoCapture => true | _ => false end.

Definition spawns_preview (e : effect) : bool :=
  match e with EPopen _ (PhotoPreview _) => true | _ => false end.

(** The shapes the effects of one event can take, from a world [w]: pin
    writes only; the feed spawned out of Sleep; the feed killed first, and
    not spawned again; the preview killed first, and not spawned again. *)
Definition step_shape (w : world) (l : list effect) : Prop :=
  forallb is_gpio l = true \/
  (CURRENT_STATE w = SLEEP /\ existsb spawns_preview l = false) \/
  (exists p rest,
      CURRENT_STATE w <> PRINT_CHECK /\
      VIDEO_FEED_POPEN w = Some p /\
      l = ETerminate p :: EWait p :: rest /\
      existsb spawns_feed rest = false) \/
  (exists p rest,
      CURRENT_STATE w = PRINT_CHECK /\
      PHOTO_PREVIEW_POPEN w = Some p /\
      l = ETerminate p :: EWait p :: rest /\
      existsb spawns_preview rest = false).

(** How many still captures a stretch of the log holds. *)
Definition captures (l : list effect) : nat :=
  length (List.filter is_capture l).

(** ** Sample surroundings and runs, for the examples below *)

Definition env0 : capture_env := mkCaptureEnv 4 1 21 0 0.
Definition env_fail : capture_env := mkCaptureEnv 4 1 21 0 1.

(** Woken up; then the countdown started; then the photo taken. *)
Definition w_idle : world := world_of (main [Press]).
Definition w_countdown : world := world_of (main [Press; Press]).
Definition w_print_check : world :=
  world_of (main [Press; Press; Tick 9 env0]).

(** Woken up, and the feed process gone by itself. *)
Definition w_idle_dead : world := world_of (main [Press; ProcessExit 0]).

(** Out of PrintCheck again: by a press, and by the timeout. *)
Definition w_cancelled : world :=
  world_of (main [Press; Press; Tick 9 env0; Press]).
Definition w_printed : world :=
  world_of (main [Press; Press; Tick 9 env0; Tick 11 env0]).

(** ** Further observations *)

(** The state changes an event may cause: the six arrows of the
    controller, or none. *)
Definition edge (e : event) (a b : States) : bool :=
  match e, a, b with
  | Press, SLEEP, IDLE
  | Press, IDLE, COUNTDOWN
  | Press, PRINT_CHECK, IDLE
  | Tick _ _, IDLE, SLEEP
  | Tick _ _, COUNTDOWN, PRINT_CHECK
  | Tick _ _, PRINT_CHECK, IDLE => true
  | _, _, _ => States_eqb a b
  end.

(** The levels written to pin [n], oldest first. *)
Fixpoint pin_writes (n : Z) (l : list effect) : list Z :=
  match l with
  | [] => []
  | EGpio (Output m v) :: l' =>
      if (m =? n)%Z then v :: pin_writes n l' else pin_writes n l'
  | _ :: l' => pin_writes n l'
  end.

(** No level is written twice in a row. *)
Fixpoint alternating (l : list Z) : bool :=
  match l with
  | a :: l' =>
      match l' with
      | b :: _ => negb (a =? b)%Z && alternating l'
      | [] => true
      end
  | [] => true
  end.

(** The pin level that stands for a cached lamp state. *)
Definition level (b : bool) : Z := if b then 1%Z else 0%Z.

(** The process an effect signals or waits for. *)
Definition target (e : effect) : option pid :=
  match e with
  | ETerminate p | EWait p => Some p
  | _ => None
  end.

Definition is_render (j : job) : bool :=
  match j with VideoRender _ => true | _ => false end.

(** How many processes of the kind are alive. *)
Definition live_count (kind : job -> bool) (ps : list process) : nat :=
  length (List.filter (live kind) ps).

(** What each event does from a world in which the handles it needs are
    set: the outcome, case by case. *)
Inductive step_case (w : world) : event -> outcome unit -> Prop :=
| case_tick_sleep dt env :
    CURRENT_STATE w = SLEEP ->
    step_case w (Tick dt env)
      (Returned tt
         (light (lamp_policy SLEEP (TOTAL_TIME w + dt)) (ticked dt w)))
| case_tick_idle_timeout dt env p :
    CURRENT_STATE w = IDLE ->
    TIME_BEFORE_SLEEP < TOTAL_TIME w + dt - STATE_START w ->
    VIDEO_FEED_POPEN w = Some p ->
    step_case w (Tick dt env)
      (Returned tt
         (light (lamp_policy SLEEP (TOTAL_TIME w + dt))
            (set_CURRENT_STATE SLEEP (timer_reset (killed p (ticked dt w))))))
| case_tick_idle_alive dt env p pr :
    CURRENT_STATE w = IDLE ->
    TOTAL_TIME w + dt - STATE_START w <= TIME_BEFORE_SLEEP ->
    VIDEO_FEED_POPEN w = Some p ->
    procs w !! p = Some pr ->
    exited pr = false ->
    step_case w (Tick dt env) (Returned tt (light true (ticked dt w)))
| case_tick_idle_dead dt env p pr :
    CURRENT_STATE w = IDLE ->
    TOTAL_TIME w + dt - STATE_START w <= TIME_BEFORE_SLEEP ->
    VIDEO_FEED_POPEN w = Some p ->
    procs w !! p = Some pr ->
    exited pr = true ->
    step_case w (Tick dt env)
      (Raised (RuntimeError "Videofeed died unexpectedly.") (ticked dt w))
| case_tick_countdown_wait dt env :
    CURRENT_STATE w = COUNTDOWN ->
    TOTAL_TIME w + dt - STATE_START w <= COUNTDOWN_DURATION ->
    step_case w (Tick dt env) (Returned tt (light false (ticked dt w)))
| case_tick_countdown_fire dt env p :
    CURRENT_STATE w = COUNTDOWN ->
    COUNTDOWN_DURATION < TOTAL_TIME w + dt - STATE_START w ->
    VIDEO_FEED_POPEN w = Some p ->
    gphoto2_returncode env = 0%Z ->
    step_case w (Tick dt env)
      (Returned tt
         (light true
            (set_CURRENT_STATE PRINT_CHECK
               (timer_reset
                  (preview_started (photo_name env)
                     (set_CURRENT_PHOTO_PATH (Some (photo_name env))
                        (photographed env (killed p (ticked dt w))))))))) 
| case_tick_countdown_fail dt env p :
    CURRENT_STATE w = COUNTDOWN ->
    COUNTDOWN_DURATION < TOTAL_TIME w + dt - STATE_START w ->
    VIDEO_FEED_POPEN w = Some p ->
    gphoto2_returncode env <> 0%Z ->
    step_case w (Tick dt env)
      (Raised (CalledProcessError (gphoto2_returncode env))
         (set_trace
            (trace (killed p (ticked dt w)) ++
             [ECheckCall (photo_argv (photo_name env))])
            (killed p (ticked dt w))))
| case_tick_print_check_wait dt env :
    CURRENT_STATE w = PRINT_CHECK ->
    TOTAL_TIME w + dt - STATE_START w <= PRINT_CHECK_DURATION ->
    step_case w (Tick dt env) (Returned tt (light true (ticked dt w)))
| case_tick_print_check_fire dt env p :
    CURRENT_STATE w = PRINT_CHECK ->
    PRINT_CHECK_DURATION < TOTAL_TIME w + dt - STATE_START w ->
    PHOTO_PREVIEW_POPEN w = Some p ->
    step_case w (Tick dt env)
      (Returned tt
         (light true
            (set_CURRENT_STATE IDLE
               (timer_reset
                  (feed_started
                     (print_requested (CURRENT_PHOTO_PATH w)
                        (killed p (ticked dt w))))))))
| case_press_sleep :
    CURRENT_STATE w = SLEEP ->
    step_case w Press
      (Returned tt (set_CURRENT_STATE IDLE (timer_reset (feed_started w))))
| case_press_idle :
    CURRENT_STATE w = IDLE ->
    step_case w Press
      (Returned tt (set_CURRENT_STATE COUNTDOWN (timer_reset w)))
| case_press_countdown :
    CURRENT_STATE w = COUNTDOWN ->
    step_case w Press (Returned tt w)
| case_press_print_check p :
    CURRENT_STATE w = PRINT_CHECK ->
    PHOTO_PREVIEW_POPEN w = Some p ->
    step_case w Press
      (Returned tt
         (timer_reset (set_CURRENT_STATE IDLE (feed_started (killed p w)))))
| case_process_exit q :
    step_case w (ProcessExit q)
      (Returned tt (set_procs (mark_exited q (procs w)) w)).

(** The lamp pin against the [LED] object: the object is there, on the
    button pin; the pin was first driven low; the level written last is the
    cached one; no level was written twice in a row. *)
Definition lamp_wired (w : world) : Prop :=
  exists led rest,
    BUTTON_LED w = Some led /\
    pin led = PIN_LED_BUTTON /\
    pin_writes PIN_LED_BUTTON (trace w) = 0%Z :: rest /\
    last (pin_writes PIN_LED_BUTTON (trace w)) = Some (level (is_on led)) /\
    alternating (pin_writes PIN_LED_BUTTON (trace w)) = true.

(** What each entry of the process table runs. *)
Definition jobs (w : world) : list job := cmd <$> procs w.

(** The processes a stretch of the log signals or waits for. *)
Definition targets (l : list effect) : list pid := omap target l.

(** A process that is there and is not an ffmpeg renderer. *)
Definition good_pid (js : list job) (p : pid) : Prop :=
  exists j, js !! p = Some j /\ is_render j = false.

(** How handles, stored path, renderers and signals hang together. *)
Definition wired (w : world) : Prop :=
  (forall p, PHOTO_PREVIEW_POPEN w = Some p ->
             exists path, jobs w !! p = Some (PhotoPreview path) /\
                          CURRENT_PHOTO_PATH w = Some path) /\
  (forall p, VIDEO_FEED_POPEN w = Some p ->
             jobs w !! p = Some VideoCapture) /\
  (forall i src, jobs w !! i = Some (VideoRender src) ->
                 i = S src /\ jobs w !! src = Some VideoCapture) /\
  Forall (good_pid (jobs w)) (targets (trace w)).

(** Decimal digits, as [str] prints them. *)
Definition is_digit (c : ascii) : bool :=
  match c with
  | "0" | "1" | "2" | "3" | "4" | "5" | "6" | "7" | "8" | "9" => true
  | _ => false
  end%char.

Fixpoint all_digits (s : string) : bool :=
  match s with
  | EmptyString => true
  | String c s' => is_digit c && all_digits s'
  end.

Definition is_print_request (e : effect) : bool :=
  match e with EPrintRequest _ => true | _ => false end.

(** * Proofs *)

(** ** The process table *)

Lemma existsb_lookup {A} (g : A -> bool) (l : list A) :
  existsb g l = true <-> exists i x, l !! i = Some x /\ g x = true.
Proof.
  rewrite existsb_exists. split.
  - intros (x & Hin & Hg). apply list_elem_of_In, list_elem_of_lookup in Hin.
    destruct Hin as [i Hi]. eauto.
  - intros (i & x & Hi & Hg). exists x. split; [|done].
    apply list_elem_of_In, list_elem_of_lookup. eauto.
Qed.

Lemma quiet_existsb kind ps : quiet kind ps <-> existsb (live kind) ps = false.
Proof.
  split.
  - intros Hq. apply not_true_iff_false. rewrite existsb_lookup.
    intros (i & x & Hi & Hg). rewrite (Hq _ _ Hi) in Hg. discriminate.
  - intros He i pr Hi. apply not_true_iff_false. intros Hg.
    apply not_true_iff_false in He. apply He, existsb_lookup. eauto.
Qed.

Lemma lookup_mark_exited p ps i :
  mark_exited p ps !! i =
  (fun pr => if decide (p = i) then mkProcess (cmd pr) true else pr)
    <$> ps !! i.
Proof.
  unfold mark_exited. destruct (ps !! p) as [pr|] eqn:Hp.
  - destruct (decide (p = i)) as [->|Hne].
    + rewrite list_lookup_insert_eq by exact (lookup_lt_Some _ _ _ Hp).
      rewrite Hp. done.
    + rewrite list_lookup_insert_ne by done. destruct (ps !! i); reflexivity.
  - destruct (decide (p = i)) as [->|Hne].
    + rewrite Hp. reflexivity.
    + destruct (ps !! i); reflexivity.
Qed.

Lemma lookup_mark_exited_Some p ps i pr :
  mark_exited p ps !! i = Some pr ->
  exists pr0, ps !! i = Some pr0 /\ cmd pr = cmd pr0 /\
              (exited pr = false -> exited pr0 = false /\ p <> i).
Proof.
  rewrite lookup_mark_exited. destruct (ps !! i) as [pr0|]; [|done].
  simpl. intros [= <-]. exists pr0. split; [done|].
  destruct (decide (p = i)); simpl; split; done.
Qed.

Lemma quiet_snoc kind ps j :
  quiet kind ps -> kind j = false -> quiet kind (ps ++ [mkProcess j false]).
Proof.
  intros Hq Hj i pr Hi. apply lookup_snoc_Some in Hi as [[_ Hi]|[_ <-]].
  - eauto.
  - unfold live. simpl. by rewrite Hj.
Qed.

Lemma sole_snoc_new kind ps j :
  quiet kind ps -> sole kind (Some (length ps)) (ps ++ [mkProcess j false]).
Proof.
  intros Hq i pr Hi Hl. apply lookup_snoc_Some in Hi as [[_ Hi]|[-> _]].
  - rewrite (Hq _ _ Hi) in Hl. discriminate.
  - done.
Qed.

Lemma sole_snoc kind h ps j :
  sole kind h ps -> kind j = false -> sole kind h (ps ++ [mkProcess j false]).
Proof.
  intros Hs Hj i pr Hi Hl. apply lookup_snoc_Some in Hi as [[_ Hi]|[_ <-]].
  - eauto.
  - unfold live in Hl. simpl in Hl. rewrite Hj in Hl. discriminate.
Qed.

Lemma holds_snoc_new kind ps j :
  kind j = true -> holds kind (Some (length ps)) (ps ++ [mkProcess j false]).
Proof.
  intros Hj. exists (length ps), (mkProcess j false).
  split; [done|]. split; [|done]. apply lookup_snoc_Some. auto.
Qed.

Lemma holds_snoc kind h ps x : holds kind h ps -> holds kind h (ps ++ [x]).
Proof.
  intros (p & pr & -> & Hp & Hk). exists p, pr. split; [done|].
  split; [|done]. apply lookup_snoc_Some. left.
  split; [exact (lookup_lt_Some _ _ _ Hp) | done].
Qed.

Lemma quiet_mark kind p ps : quiet kind ps -> quiet kind (mark_exited p ps).
Proof.
  intros Hq i pr Hi.
  apply lookup_mark_exited_Some in Hi as (pr0 & Hi & Hc & He).
  specialize (Hq _ _ Hi). unfold live in *. rewrite Hc.
  destruct (kind (cmd pr0)); [|done]. simpl in *.
  destruct (exited pr) eqn:E; [done|]. destruct (He eq_refl) as [E0 _].
  by rewrite E0 in Hq.
Qed.

Lemma sole_mark kind h p ps : sole kind h ps -> sole kind h (mark_exited p ps).
Proof.
  intros Hs i pr Hi Hl.
  apply lookup_mark_exited_Some in Hi as (pr0 & Hi & Hc & He).
  apply (Hs _ _ Hi). unfold live in *. rewrite Hc in Hl.
  destruct (kind (cmd pr0)); [|done]. simpl in *.
  destruct (exited pr) eqn:E; [done|]. destruct (He eq_refl) as [E0 _].
  by rewrite E0.
Qed.

Lemma holds_mark kind h p ps :
  holds kind h ps -> holds kind h (mark_exited p ps).
Proof.
  intros (q & pr & -> & Hq & Hk).
  exists q, (if decide (p = q) then mkProcess (cmd pr) true else pr).
  split; [done|]. split.
  - rewrite lookup_mark_exited, Hq. done.
  - by destruct (decide (p = q)).
Qed.

Lemma sole_mark_quiet kind p ps :
  sole kind (Some p) ps -> quiet kind (mark_exited p ps).
Proof.
  intros Hs i pr Hi.
  apply lookup_mark_exited_Some in Hi as (pr0 & Hi & Hc & He).
  unfold live. rewrite Hc.
  destruct (kind (cmd pr0)) eqn:Hk; [|done]. simpl.
  destruct (exited pr) eqn:E; [done|]. destruct (He eq_refl) as [E0 Hne].
  exfalso. apply Hne.
  assert (Some p = Some i) as [= ->]; [|done].
  apply (Hs _ _ Hi). unfold live. by rewrite Hk, E0.
Qed.

Lemma length_mark_exited p ps : length (mark_exited p ps) = length ps.
Proof.
  unfold mark_exited. destruct (ps !! p); [|done]. apply length_insert.
Qed.

(** ** Symbolic execution of the module *)

Ltac py_unfold :=
  cbv [step update accumulate transition indicator button_event process_exit
       kill_video_feed start_video_feed kill_photo_preview
       start_photo_preview take_photo print_photo check_call print GPIO
       LED_on LED_off Popen terminate wait has_exited emit deref
       bind ret raise gets modify elapsed_in_state light
       set_BUTTON_LED set_CURRENT_STATE set_TOTAL_TIME set_STATE_START
       set_CURRENT_PHOTO_PATH set_VIDEO_FEED_POPEN set_PHOTO_PREVIEW_POPEN
       set_procs set_trace
       BUTTON_LED CURRENT_STATE TOTAL_TIME STATE_START CURRENT_PHOTO_PATH
       VIDEO_FEED_POPEN PHOTO_PREVIEW_POPEN procs trace pin is_on].

Ltac py_exec w :=
  destruct w as [led0 st0 total0 start0 photo0 feed0 preview0 ps0 tr0];
  simpl in *; subst; py_unfold.

Ltac py_case :=
  match goal with
  | |- context [match ?x with _ => _ end] => is_var x; destruct x
  | |- context [if Qgtb ?a ?b then _ else _] => destruct (Qgtb a b) eqn:?
  | |- context [if (?z =? 0)%Z then _ else _] => destruct (z =? 0)%Z eqn:?
  | |- context [match ?l !! ?n with _ => _ end] => destruct (l !! n) eqn:?
  | |- context [if exited ?pr then _ else _] => destruct (exited pr) eqn:?
  end; cbv beta iota.

Ltac py_cases := cbv [in_tuple existsb States_eqb orb negb]; repeat py_case.

Lemma update_phases dt env w :
  update dt env w = (accumulate dt ;; transition env ;; indicator) w.
Proof. reflexivity. Qed.

Lemma LED_on_light w :
  is_Some (BUTTON_LED w) -> LED_on w = Returned tt (light true w).
Proof.
  intros [led Hled]. py_exec w. by destruct led as [n []].
Qed.

Lemma LED_off_light w :
  is_Some (BUTTON_LED w) -> LED_off w = Returned tt (light false w).
Proof.
  intros [led Hled]. py_exec w. by destruct led as [n []].
Qed.

Lemma indicator_light w :
  is_Some (BUTTON_LED w) ->
  indicator w =
  Returned tt (light (lamp_policy (CURRENT_STATE w) (TOTAL_TIME w)) w).
Proof.
  intros Hled. unfold indicator, bind, gets.
  destruct (CURRENT_STATE w); simpl;
    try (by apply LED_on_light); try (by apply LED_off_light).
  destruct (Qgtb _ _); [by apply LED_on_light | by apply LED_off_light].
Qed.

Lemma indicator_None w :
  BUTTON_LED w = None -> indicator w = Raised AttributeError w.
Proof.
  intros Hled. py_exec w. destruct st0; simpl; try done.
  by destruct (Qgtb _ _).
Qed.

Ltac world_eq :=
  cbv [killed spawned feed_started photographed preview_started
       print_requested timer_reset];
  py_unfold; repeat (rewrite <- (app_assoc (A:=effect)); simpl);
  try reflexivity.


Lemma kill_photo_preview_Some w p :
  PHOTO_PREVIEW_POPEN w = Some p ->
  kill_photo_preview w = Returned tt (killed p w).
Proof. intros H. py_exec w. world_eq. Qed.

Lemma start_video_feed_spec w :
  start_video_feed w = Returned tt (feed_started w).
Proof. py_exec w. world_eq. Qed.

Lemma Qgtb_true a b : Qgtb a b = true <-> b < a.
Proof.
  unfold Qgtb. rewrite negb_true_iff, <- not_true_iff_false, Qle_bool_iff.
  split; [apply Qnot_le_lt | apply Qlt_not_le].
Qed.

Lemma Qgtb_false a b : Qgtb a b = false <-> a <= b.
Proof. unfold Qgtb. by rewrite negb_false_iff, Qle_bool_iff. Qed.

(** *** [button_event], state by state *)

Lemma button_event_sleep ch w :
  CURRENT_STATE w = SLEEP ->
  button_event ch w =
  Returned tt (set_CURRENT_STATE IDLE (timer_reset (feed_started w))).
Proof. intros H. py_exec w. world_eq. Qed.

Lemma button_event_idle ch w :
  CURRENT_STATE w = IDLE ->
  button_event ch w = Returned tt (set_CURRENT_STATE COUNTDOWN (timer_reset w)).
Proof. intros H. py_exec w. world_eq. Qed.

Lemma button_event_countdown ch w :
  CURRENT_STATE w = COUNTDOWN -> button_event ch w = Returned tt w.
Proof. intros H. py_exec w. world_eq. Qed.

Lemma button_event_print_check ch w p :
  CURRENT_STATE w = PRINT_CHECK ->
  PHOTO_PREVIEW_POPEN w = Some p ->
  button_event ch w =
  Returned tt
    (timer_reset (set_CURRENT_STATE IDLE (feed_started (killed p w)))).
Proof. intros H Hp. py_exec w. world_eq. Qed.

(** *** [transition], row by row *)

Lemma transition_sleep env w :
  CURRENT_STATE w = SLEEP -> transition env w = Returned tt w.
Proof. intros H. py_exec w. world_eq. Qed.

Lemma transition_countdown_wait env w :
  CURRENT_STATE w = COUNTDOWN ->
  elapsed_in_state w <= COUNTDOWN_DURATION ->
  transition env w = Returned tt w.
Proof.
  intros H Hle. apply Qgtb_false in Hle. revert Hle. py_exec w.
  intros ->. reflexivity.
Qed.

Lemma transition_countdown_fire env w p :
  CURRENT_STATE w = COUNTDOWN ->
  COUNTDOWN_DURATION < elapsed_in_state w ->
  VIDEO_FEED_POPEN w = Some p ->
  gphoto2_returncode env = 0%Z ->
  transition env w =
  Returned tt
    (set_CURRENT_STATE PRINT_CHECK
       (timer_reset
          (preview_started (photo_name env)
             (set_CURRENT_PHOTO_PATH (Some (photo_name env))
                (photographed env (killed p w)))))).
Proof.
  intros H Hlt Hp Hrc. apply Qgtb_true in Hlt. revert Hlt. py_exec w.
  intros ->. rewrite Hrc. world_eq.
Qed.

Lemma transition_countdown_fail env w p :
  CURRENT_STATE w = COUNTDOWN ->
  COUNTDOWN_DURATION < elapsed_in_state w ->
  VIDEO_FEED_POPEN w = Some p ->
  gphoto2_returncode env <> 0%Z ->
  transition env w =
  Raised (CalledProcessError (gphoto2_returncode env))
    (set_trace
       (trace (killed p w) ++ [ECheckCall (photo_argv (photo_name env))])
       (killed p w)).
Proof.
  intros H Hlt Hp Hrc. apply Qgtb_true in Hlt. revert Hlt. py_exec w.
  intros ->. apply Z.eqb_neq in Hrc. rewrite Hrc. world_eq.
Qed.

Lemma transition_print_check_wait env w :
  CURRENT_STATE w = PRINT_CHECK ->
  elapsed_in_state w <= PRINT_CHECK_DURATION ->
  transition env w = Returned tt w.
Proof.
  intros H Hle. apply Qgtb_false in Hle. revert Hle. py_exec w.
  intros ->. reflexivity.
Qed.

Lemma transition_print_check_fire env w p :
  CURRENT_STATE w = PRINT_CHECK ->
  PRINT_CHECK_DURATION < elapsed_in_state w ->
  PHOTO_PREVIEW_POPEN w = Some p ->
  transition env w =
  Returned tt
    (set_CURRENT_STATE IDLE
       (timer_reset
          (feed_started
             (print_requested (CURRENT_PHOTO_PATH w) (killed p w))))).
Proof.
  intros H Hlt Hp. apply Qgtb_true in Hlt. revert Hlt. py_exec w.
  intros ->. world_eq.
Qed.

Lemma transition_idle_timeout env w p :
  CURRENT_STATE w = IDLE ->
  TIME_BEFORE_SLEEP < elapsed_in_state w ->
  VIDEO_FEED_POPEN w = Some p ->
  transition env w =
  Returned tt (set_CURRENT_STATE SLEEP (timer_reset (killed p w))).
Proof.
  intros H Hlt Hp. apply Qgtb_true in Hlt. revert Hlt. py_exec w.
  intros ->. world_eq.
Qed.

Lemma transition_idle_poll env w p pr :
  CURRENT_STATE w = IDLE ->
  elapsed_in_state w <= TIME_BEFORE_SLEEP ->
  VIDEO_FEED_POPEN w = Some p ->
  procs w !! p = Some pr ->
  transition env w =
  if exited pr then Raised (RuntimeError "Videofeed died unexpectedly.") w
  else Returned tt w.
Proof.
  intros H Hle Hp Hpr. apply Qgtb_false in Hle. revert Hle. py_exec w.
  intros ->. rewrite Hpr. by destruct (exited pr).
Qed.

(** ** Runs and reachable worlds *)

Lemma main_run evs : main evs = run evs boot.
Proof. reflexivity. Qed.

Lemma run_snoc evs e w :
  run (evs ++ [e]) w =
  match run evs w with
  | Returned _ w' => step e w'
  | Raised x w' => Raised x w'
  end.
Proof.
  revert w. induction evs as [|e0 evs IH]; intros w; simpl.
  - unfold bind, ret. by destruct (step e w) as [[] ?|].
  - unfold bind. destruct (step e0 w) as [[] w1|]; [apply IH | done].
Qed.

Lemma reachable_boot : reachable boot.
Proof. by exists []. Qed.

Lemma reachable_step w e w' :
  reachable w -> step e w = Returned tt w' -> reachable w'.
Proof.
  intros [evs Hevs] Hstep. exists (evs ++ [e])%list.
  rewrite main_run, run_snoc, <- main_run, Hevs. done.
Qed.

Lemma reachable_induction (P : world -> Prop) :
  P boot ->
  (forall w e w', reachable w -> P w -> step e w = Returned tt w' -> P w') ->
  forall w, reachable w -> P w.
Proof.
  intros Hboot Hstep w [evs Hevs]. revert w Hevs.
  induction evs as [|e evs IH] using rev_ind; intros w Hevs.
  - rewrite main_run in Hevs. simpl in Hevs. by injection Hevs as <-.
  - rewrite main_run, run_snoc, <- main_run in Hevs.
    destruct (main evs) as [[] w0|] eqn:Hmain; [|done].
    apply (Hstep w0 e w); [by exists evs | by apply IH | done].
Qed.

(** ** The invariant holds in every reachable world *)

Lemma inv_boot : inv boot.
Proof.
  split; [by eexists|]. simpl. split; intros i pr Hi; by destruct i.
Qed.

Lemma inv_light b w : inv w -> inv (light b w).
Proof.
  intros [[led Hled] Hs]. unfold light. rewrite Hled.
  destruct (Bool.eqb _ _); [by split; [exists led|]|].
  split; [by eexists|]. exact Hs.
Qed.

Lemma inv_accumulate dt w : inv w -> inv (set_TOTAL_TIME (TOTAL_TIME w + dt) w).
Proof. intros [Hled Hs]. split; [exact Hled | exact Hs]. Qed.

Lemma supervised_feed_started w :
  quiet is_feed (procs w) -> quiet is_preview (procs w) ->
  holds is_feed (VIDEO_FEED_POPEN (feed_started w)) (procs (feed_started w)) /\
  sole is_feed (VIDEO_FEED_POPEN (feed_started w)) (procs (feed_started w)) /\
  quiet is_preview (procs (feed_started w)).
Proof.
  intros Hf Hp. simpl. split; [|split].
  - apply holds_snoc. by apply holds_snoc_new.
  - apply sole_snoc; [|done]. by apply sole_snoc_new.
  - apply quiet_snoc; [|done]. by apply quiet_snoc.
Qed.

Lemma inv_button_event ch w w' :
  inv w -> button_event ch w = Returned tt w' -> inv w'.
Proof.
  intros [Hled Hs] Hev. unfold supervised in Hs.
  destruct (CURRENT_STATE w) eqn:Hst.
  - rewrite button_event_idle in Hev by done. injection Hev as <-.
    split; [exact Hled | exact Hs].
  - rewrite button_event_countdown in Hev by done. injection Hev as <-.
    split; [exact Hled|]. unfold supervised. by rewrite Hst.
  - destruct Hs as ((p & pr & Hp & Hpr & Hk) & Hsole & Hq & _).
    rewrite (button_event_print_check _ _ p) in Hev by done.
    injection Hev as <-. split; [exact Hled|].
    apply (supervised_feed_started (killed p w)); simpl.
    + by apply quiet_mark.
    + apply sole_mark_quiet. by rewrite <- Hp.
  - destruct Hs as [Hf Hp].
    rewrite button_event_sleep in Hev by done. injection Hev as <-.
    split; [exact Hled|]. by apply (supervised_feed_started w).
Qed.

Lemma inv_process_exit p w :
  inv w -> inv (set_procs (mark_exited p (procs w)) w).
Proof.
  intros [Hled Hs]. split; [exact Hled|]. unfold supervised in *. simpl.
  destruct (CURRENT_STATE w).
  - destruct Hs as (? & ? & ?).
    repeat split; auto using holds_mark, sole_mark, quiet_mark.
  - destruct Hs as (? & ? & ?).
    repeat split; auto using holds_mark, sole_mark, quiet_mark.
  - destruct Hs as (? & ? & ? & ?).
    repeat split; auto using holds_mark, sole_mark, quiet_mark.
  - destruct Hs as (? & ?). split; auto using quiet_mark.
Qed.

Lemma inv_transition env w w' :
  inv w -> transition env w = Returned tt w' -> inv w'.
Proof.
  intros [Hled Hs] Htr. unfold supervised in Hs.
  destruct (CURRENT_STATE w) eqn:Hst.
  - destruct Hs as ((p & pr & Hp & Hpr & Hk) & Hsole & Hq).
    destruct (Qlt_le_dec TIME_BEFORE_SLEEP (elapsed_in_state w)) as [Hlt|Hle].
    + rewrite (transition_idle_timeout _ _ p) in Htr by done.
      injection Htr as <-. split; [exact Hled|]. unfold supervised. simpl.
      split; [|by apply quiet_mark].
      apply sole_mark_quiet. by rewrite <- Hp.
    + rewrite (transition_idle_poll _ _ p pr) in Htr by done.
      destruct (exited pr); [done|]. injection Htr as <-.
      split; [exact Hled|]. unfold supervised. rewrite Hst.
      by split_and!; [exists p, pr|..].
  - destruct Hs as ((p & pr & Hp & Hpr & Hk) & Hsole & Hq).
    destruct (Qlt_le_dec COUNTDOWN_DURATION (elapsed_in_state w)) as [Hlt|Hle].
    + destruct (Z.eq_dec (gphoto2_returncode env) 0%Z) as [Hrc|Hrc].
      * rewrite (transition_countdown_fire _ _ p) in Htr by done.
        injection Htr as <-. split; [exact Hled|]. unfold supervised. simpl.
        rewrite length_mark_exited.
        rewrite <- (length_mark_exited p (procs w)).
        split; [by apply holds_snoc_new|].
        split; [apply sole_snoc_new; by apply quiet_mark|].
        split; [|by eexists].
        apply quiet_snoc; [|done]. apply sole_mark_quiet. by rewrite <- Hp.
      * by rewrite (transition_countdown_fail _ _ p) in Htr.
    + rewrite transition_countdown_wait in Htr by done. injection Htr as <-.
      split; [exact Hled|]. unfold supervised. rewrite Hst.
      by split_and!; [exists p, pr|..].
  - destruct Hs as ((p & pr & Hp & Hpr & Hk) & Hsole & Hq & Hphoto).
    destruct (Qlt_le_dec PRINT_CHECK_DURATION (elapsed_in_state w))
      as [Hlt|Hle].
    + rewrite (transition_print_check_fire _ _ p) in Htr by done.
      injection Htr as <-. split; [exact Hled|].
      apply (supervised_feed_started
               (print_requested (CURRENT_PHOTO_PATH w) (killed p w))); simpl.
      * by apply quiet_mark.
      * apply sole_mark_quiet. by rewrite <- Hp.
    + rewrite transition_print_check_wait in Htr by done. injection Htr as <-.
      split; [exact Hled|]. unfold supervised. rewrite Hst.
      by split_and!; [exists p, pr|..].
  - rewrite transition_sleep in Htr by done. injection Htr as <-.
    split; [exact Hled|]. unfold supervised. by rewrite Hst.
Qed.

Lemma update_Returned dt env w w' :
  inv w ->
  update dt env w = Returned tt w' ->
  exists w2,
    transition env (set_TOTAL_TIME (TOTAL_TIME w + dt) w) = Returned tt w2 /\
    inv w2 /\
    w' = light (lamp_policy (CURRENT_STATE w2) (TOTAL_TIME w2)) w2.
Proof.
  intros Hinv Hup. rewrite update_phases in Hup.
  unfold bind, accumulate, modify in Hup.
  destruct (transition env _) as [[] w2|] eqn:Htr; [|done].
  assert (inv w2) as Hinv2.
  { eapply inv_transition; [|exact Htr]. by apply inv_accumulate. }
  rewrite indicator_light in Hup by apply Hinv2.
  injection Hup as <-. eauto.
Qed.

Lemma inv_step e w w' : inv w -> step e w = Returned tt w' -> inv w'.
Proof.
  intros Hinv Hstep. destruct e as [dt env| |p]; simpl in Hstep.
  - apply update_Returned in Hstep as (w2 & _ & Hinv2 & ->); [|done].
    by apply inv_light.
  - by eapply inv_button_event.
  - injection Hstep as <-. by apply inv_process_exit.
Qed.

Lemma reachable_inv w : reachable w -> inv w.
Proof.
  revert w. apply reachable_induction; [apply inv_boot|].
  intros w e w' _ Hinv Hstep. by eapply inv_step.
Qed.

(** ** What a call leaves alone *)

Lemma light_frame b w :
  CURRENT_STATE (light b w) = CURRENT_STATE w /\
  TOTAL_TIME (light b w) = TOTAL_TIME w /\
  STATE_START (light b w) = STATE_START w /\
  CURRENT_PHOTO_PATH (light b w) = CURRENT_PHOTO_PATH w /\
  VIDEO_FEED_POPEN (light b w) = VIDEO_FEED_POPEN w /\
  PHOTO_PREVIEW_POPEN (light b w) = PHOTO_PREVIEW_POPEN w /\
  procs (light b w) = procs w /\
  trace (light b w) = (trace w ++ lamp_effects b w)%list.
Proof.
  unfold light, lamp_effects. destruct (BUTTON_LED w) as [led|].
  - destruct (Bool.eqb _ _); simpl; rewrite ?app_nil_r; done.
  - rewrite app_nil_r. done.
Qed.

Lemma lamp_light b w : is_Some (BUTTON_LED w) -> lamp (light b w) = Some b.
Proof.
  intros [led Hled]. unfold lamp, light. rewrite Hled.
  destruct (Bool.eqb (is_on led) b) eqn:E; simpl.
  - rewrite Hled. simpl. f_equal. by apply Bool.eqb_prop.
  - done.
Qed.

Lemma emitted_app w w' l : trace w' = (trace w ++ l)%list -> emitted w w' = l.
Proof. intros H. unfold emitted. rewrite H. apply drop_app_length. Qed.

Lemma update_TOTAL_TIME dt env w :
  TOTAL_TIME (world_of (update dt env w)) = TOTAL_TIME w + dt.
Proof. py_exec w. py_cases; reflexivity. Qed.

Lemma button_event_TOTAL_TIME ch w :
  TOTAL_TIME (world_of (button_event ch w)) = TOTAL_TIME w.
Proof. py_exec w. py_cases; reflexivity. Qed.

Lemma step_TOTAL_TIME e w :
  TOTAL_TIME (world_of (step e w)) =
  match e with Tick dt _ => TOTAL_TIME w + dt | _ => TOTAL_TIME w end.
Proof.
  destruct e; simpl.
  - apply update_TOTAL_TIME.
  - apply button_event_TOTAL_TIME.
  - reflexivity.
Qed.

(** ** [update] through its parts *)

Lemma update_via_transition dt env w w2 :
  transition env (set_TOTAL_TIME (TOTAL_TIME w + dt) w) = Returned tt w2 ->
  is_Some (BUTTON_LED w2) ->
  update dt env w =
  Returned tt (light (lamp_policy (CURRENT_STATE w2) (TOTAL_TIME w2)) w2).
Proof.
  intros Htr Hled. rewrite update_phases. unfold bind, accumulate, modify.
  rewrite Htr. by apply indicator_light.
Qed.

Lemma update_via_raise dt env w x w2 :
  transition env (set_TOTAL_TIME (TOTAL_TIME w + dt) w) = Raised x w2 ->
  update dt env w = Raised x w2.
Proof.
  intros Htr. rewrite update_phases. unfold bind, accumulate, modify.
  by rewrite Htr.
Qed.

Lemma run_cons e evs w :
  run (e :: evs) w =
  match step e w with
  | Returned _ w1 => run evs w1
  | Raised x w1 => Raised x w1
  end.
Proof. reflexivity. Qed.

(** ** The clock *)

Lemma run_TOTAL_TIME_le evs w :
  forallb nonneg_tick evs = true ->
  TOTAL_TIME w <= TOTAL_TIME (world_of (run evs w)).
Proof.
  revert w. induction evs as [|e evs IH]; intros w Hnn.
  - simpl. apply Qle_refl.
  - simpl in Hnn. apply andb_true_iff in Hnn as [He Hevs].
    assert (TOTAL_TIME w <= TOTAL_TIME (world_of (step e w))) as Hstep.
    { rewrite step_TOTAL_TIME. destruct e as [dt env| |p]; try apply Qle_refl.
      simpl in He. apply Qle_bool_iff in He. lra. }
    rewrite run_cons. destruct (step e w) as [[] w1|x w1]; simpl in *.
    + eapply Qle_trans; [exact Hstep | by apply IH].
    + exact Hstep.
Qed.

(** C9: along any sequence of events whose ticks all have [dt >= 0], and
    from any world, [TOTAL_TIME] at the end of the run is at least what it
    was at the start (a run of one event is one call); the clock of a fresh
    controller is zero. *)
Theorem total_time_monotone (evs : list event) (w : world) :
  forallb nonneg_tick evs = true ->
  TOTAL_TIME boot = 0 /\
  TOTAL_TIME w <= TOTAL_TIME (world_of (run evs w)).
Proof.
  intros Hnn. split; [reflexivity | by apply run_TOTAL_TIME_le].
Qed.

Lemma total_time_monotone_witness :
  TOTAL_TIME boot = 0 /\
  TOTAL_TIME boot <=
  TOTAL_TIME (world_of (run [Tick 1 env0; Press; Tick (1 # 2) env0] boot)).
Proof.
  apply (total_time_monotone [Tick 1 env0; Press; Tick (1 # 2) env0] boot).
  reflexivity.
Defined.

(** ** Sleep *)

Lemma update_sleep dt env w :
  is_Some (BUTTON_LED w) ->
  CURRENT_STATE w = SLEEP ->
  update dt env w =
  Returned tt (light (lamp_policy SLEEP (TOTAL_TIME w + dt))
                 (set_TOTAL_TIME (TOTAL_TIME w + dt) w)).
Proof.
  intros Hled Hst.
  rewrite (update_via_transition dt env w
             (set_TOTAL_TIME (TOTAL_TIME w + dt) w)).
  - simpl. by rewrite Hst.
  - by apply transition_sleep.
  - exact Hled.
Qed.

(** C10: a tick in Sleep returns and leaves [CURRENT_STATE], [STATE_START]
    and [CURRENT_PHOTO_PATH] (and the handles and the process table) as they
    were; only [TOTAL_TIME] grows by [dt] and the lamp follows the blink.
    An event that takes the controller out of Sleep is a press, and a press
    does take it to Idle. *)
Theorem sleep_tick_frame (dt : Q) (env : capture_env) (w : world) :
  reachable w ->
  CURRENT_STATE w = SLEEP ->
  (exists w',
      update dt env w = Returned tt w' /\
      CURRENT_STATE w' = SLEEP /\
      STATE_START w' = STATE_START w /\
      CURRENT_PHOTO_PATH w' = CURRENT_PHOTO_PATH w /\
      VIDEO_FEED_POPEN w' = VIDEO_FEED_POPEN w /\
      PHOTO_PREVIEW_POPEN w' = PHOTO_PREVIEW_POPEN w /\
      procs w' = procs w /\
      TOTAL_TIME w' = TOTAL_TIME w + dt /\
      lamp w' = Some (lamp_policy SLEEP (TOTAL_TIME w + dt))) /\
  (forall e, CURRENT_STATE (world_of (step e w)) <> SLEEP -> e = Press) /\
  CURRENT_STATE (world_of (step Press w)) = IDLE.
Proof.
  intros Hreach Hst. destruct (reachable_inv _ Hreach) as [Hled _].
  split; [|split].
  - eexists. split; [by apply update_sleep|].
    destruct (light_frame (lamp_policy SLEEP (TOTAL_TIME w + dt))
                (set_TOTAL_TIME (TOTAL_TIME w + dt) w))
      as (-> & -> & -> & -> & -> & -> & -> & _).
    rewrite lamp_light by exact Hled. simpl. by rewrite Hst.
  - intros [dt' env'| |p] Hout; [|done|].
    + exfalso. apply Hout. simpl. rewrite update_sleep by done.
      unfold world_of.
      destruct (light_frame (lamp_policy SLEEP (TOTAL_TIME w + dt'))
                  (set_TOTAL_TIME (TOTAL_TIME w + dt') w)) as (-> & _).
      exact Hst.
    + exfalso. apply Hout. exact Hst.
  - simpl. by rewrite button_event_sleep.
Qed.

Lemma sleep_tick_frame_witness :
  (exists w',
      update (7 # 10) env0 boot = Returned tt w' /\
      CURRENT_STATE w' = SLEEP /\
      STATE_START w' = STATE_START boot /\
      CURRENT_PHOTO_PATH w' = CURRENT_PHOTO_PATH boot /\
      VIDEO_FEED_POPEN w' = VIDEO_FEED_POPEN boot /\
      PHOTO_PREVIEW_POPEN w' = PHOTO_PREVIEW_POPEN boot /\
      procs w' = procs boot /\
      TOTAL_TIME w' = TOTAL_TIME boot + (7 # 10) /\
      lamp w' = Some (lamp_policy SLEEP (TOTAL_TIME boot + (7 # 10)))) /\
  (forall e, CURRENT_STATE (world_of (step e boot)) <> SLEEP -> e = Press) /\
  CURRENT_STATE (world_of (step Press boot)) = IDLE.
Proof.
  apply (sleep_tick_frame (7 # 10) env0 boot).
  - exists []. reflexivity.
  - reflexivity.
Defined.

(** ** Whether the feed is alive *)

Lemma feed_active_handle w p pr :
  VIDEO_FEED_POPEN w = Some p ->
  procs w !! p = Some pr ->
  is_feed (cmd pr) = true ->
  sole is_feed (VIDEO_FEED_POPEN w) (procs w) ->
  video_feed_active w = negb (exited pr).
Proof.
  intros Hp Hpr Hk Hsole. unfold video_feed_active.
  destruct (exited pr) eqn:Hex; simpl.
  - apply quiet_existsb. intros i pr' Hi.
    apply not_true_iff_false. intros Hlive.
    specialize (Hsole _ _ Hi Hlive). rewrite Hp in Hsole.
    injection Hsole as <-. rewrite Hpr in Hi. injection Hi as <-.
    unfold live in Hlive. rewrite Hex, andb_false_r in Hlive. done.
  - apply existsb_lookup. exists p, pr. split; [done|].
    unfold live. by rewrite Hk, Hex.
Qed.

(** ** When [update] raises *)

Lemma transition_Raised env w x w' :
  inv w ->
  transition env w = Raised x w' ->
  (CURRENT_STATE w = IDLE /\
   elapsed_in_state w <= TIME_BEFORE_SLEEP /\
   video_feed_active w = false /\
   x = RuntimeError "Videofeed died unexpectedly." /\
   w' = w) \/
  (CURRENT_STATE w = COUNTDOWN /\
   COUNTDOWN_DURATION < elapsed_in_state w /\
   gphoto2_returncode env <> 0%Z /\
   x = CalledProcessError (gphoto2_returncode env) /\
   exists p, VIDEO_FEED_POPEN w = Some p /\
     w' = set_trace
            (trace (killed p w) ++ [ECheckCall (photo_argv (photo_name env))])
            (killed p w)).
Proof.
  intros [Hled Hs] Htr. unfold supervised in Hs.
  destruct (CURRENT_STATE w) eqn:Hst.
  - left. destruct Hs as ((p & pr & Hp & Hpr & Hk) & Hsole & Hq).
    destruct (Qlt_le_dec TIME_BEFORE_SLEEP (elapsed_in_state w)) as [Hlt|Hle].
    + by rewrite (transition_idle_timeout _ _ p) in Htr.
    + rewrite (transition_idle_poll _ _ p pr) in Htr by done.
      rewrite (feed_active_handle w p pr) by done.
      destruct (exited pr); [|done]. by injection Htr as <- <-.
  - right. destruct Hs as ((p & pr & Hp & Hpr & Hk) & Hsole & Hq).
    destruct (Qlt_le_dec COUNTDOWN_DURATION (elapsed_in_state w)) as [Hlt|Hle].
    + destruct (Z.eq_dec (gphoto2_returncode env) 0%Z) as [Hrc|Hrc].
      * by rewrite (transition_countdown_fire _ _ p) in Htr.
      * rewrite (transition_countdown_fail _ _ p) in Htr by done.
        injection Htr as <- <-. eauto 10.
    + by rewrite transition_countdown_wait in Htr.
  - destruct Hs as ((p & pr & Hp & Hpr & Hk) & Hsole & Hq & Hphoto).
    destruct (Qlt_le_dec PRINT_CHECK_DURATION (elapsed_in_state w))
      as [Hlt|Hle].
    + by rewrite (transition_print_check_fire _ _ p) in Htr.
    + by rewrite transition_print_check_wait in Htr.
  - by rewrite transition_sleep in Htr.
Qed.

Lemma update_Raised dt env w x w' :
  inv w ->
  update dt env w = Raised x w' ->
  transition env (ticked dt w) = Raised x w'.
Proof.
  intros Hinv Hup. rewrite update_phases in Hup.
  unfold bind, accumulate, modify in Hup. fold (ticked dt w) in Hup.
  destruct (transition env (ticked dt w)) as [[] w2|x2 w2] eqn:Htr.
  - assert (inv w2) as [Hled2 _].
    { eapply inv_transition; [|exact Htr]. by apply inv_accumulate. }
    by rewrite indicator_light in Hup.
  - done.
Qed.

(** ** The lamp *)

Lemma Qfloor_unique (x : Q) (k : Z) :
  inject_Z k <= x -> x < inject_Z (k + 1) -> Qfloor x = k.
Proof.
  intros Hlo Hhi.
  assert (k <= Qfloor x)%Z as H1.
  { rewrite <- (Qfloor_Z k). by apply Qfloor_resp_le. }
  assert (Qfloor x < k + 1)%Z as H2.
  { rewrite Zlt_Qlt. eapply Qle_lt_trans; [apply Qfloor_le | exact Hhi]. }
  lia.
Qed.

Lemma py_mod_period (k : Z) (r : Q) :
  0 <= r -> r < 1 -> py_mod (inject_Z k + r) BLINK_PERIOD == r.
Proof.
  intros H0 H1. unfold py_mod, BLINK_PERIOD.
  assert ((inject_Z k + r) / 1 == inject_Z k + r) as Hdiv by field.
  assert (Qfloor ((inject_Z k + r) / 1) = k) as ->.
  { rewrite Hdiv. apply Qfloor_unique.
    - lra.
    - rewrite inject_Z_plus. change (inject_Z 1) with 1. lra. }
  lra.
Qed.

Lemma lamp_policy_blink (k : Z) (r : Q) :
  0 <= r -> r < 1 ->
  lamp_policy SLEEP (inject_Z k + r) = true <-> 1 # 2 < r.
Proof.
  intros H0 H1. unfold lamp_policy.
  rewrite Qgtb_true, (py_mod_period k r H0 H1).
  unfold BLINK_PERIOD. assert (1 / 2 == 1 # 2) as -> by reflexivity.
  reflexivity.
Qed.


(** ** Idle *)

Lemma update_idle_timeout dt env w p :
  is_Some (BUTTON_LED w) ->
  CURRENT_STATE w = IDLE ->
  TIME_BEFORE_SLEEP < TOTAL_TIME w + dt - STATE_START w ->
  VIDEO_FEED_POPEN w = Some p ->
  update dt env w =
  Returned tt
    (light (lamp_policy SLEEP (TOTAL_TIME w + dt))
       (set_CURRENT_STATE SLEEP (timer_reset (killed p (ticked dt w))))).
Proof.
  intros Hled Hst Hlt Hp.
  rewrite (update_via_transition dt env w
             (set_CURRENT_STATE SLEEP (timer_reset (killed p (ticked dt w))))).
  - reflexivity.
  - by apply transition_idle_timeout.
  - exact Hled.
Qed.

Lemma update_idle_poll dt env w p pr :
  is_Some (BUTTON_LED w) ->
  CURRENT_STATE w = IDLE ->
  TOTAL_TIME w + dt - STATE_START w <= TIME_BEFORE_SLEEP ->
  VIDEO_FEED_POPEN w = Some p ->
  procs w !! p = Some pr ->
  update dt env w =
  if exited pr
  then Raised (RuntimeError "Videofeed died unexpectedly.") (ticked dt w)
  else Returned tt (light true (ticked dt w)).
Proof.
  intros Hled Hst Hle Hp Hpr.
  pose proof (transition_idle_poll env (ticked dt w) p pr Hst Hle Hp Hpr)
    as Htr.
  destruct (exited pr).
  - by apply update_via_raise.
  - rewrite (update_via_transition dt env w (ticked dt w)) by done.
    simpl. by rewrite Hst.
Qed.

(** C6: a tick in Idle whose elapsed time in the state exceeds
    [TIME_BEFORE_SLEEP] returns in Sleep, having terminated and waited for
    the feed process (no feed is live afterwards) and reset the timer; a
    tick that leaves the elapsed time at or below the bound ends with the
    state still Idle. *)
Theorem idle_goes_to_sleep (dt : Q) (env : capture_env) (w : world) :
  reachable w ->
  CURRENT_STATE w = IDLE ->
  (TIME_BEFORE_SLEEP < TOTAL_TIME w + dt - STATE_START w ->
   exists w' p,
     update dt env w = Returned tt w' /\
     CURRENT_STATE w' = SLEEP /\
     VIDEO_FEED_POPEN w = Some p /\
     emitted w w' =
       ([ETerminate p; EWait p] ++
        lamp_effects (lamp_policy SLEEP (TOTAL_TIME w + dt)) w)%list /\
     video_feed_active w' = false /\
     STATE_START w' = TOTAL_TIME w + dt) /\
  (TOTAL_TIME w + dt - STATE_START w <= TIME_BEFORE_SLEEP ->
   CURRENT_STATE (world_of (update dt env w)) = IDLE).
Proof.
  intros Hreach Hst. destruct (reachable_inv _ Hreach) as [Hled Hs].
  unfold supervised in Hs. rewrite Hst in Hs.
  destruct Hs as ((p & pr & Hp & Hpr & Hk) & Hsole & Hq).
  split.
  - intros Hlt. eexists. exists p.
    split; [by apply update_idle_timeout|].
    set (b := lamp_policy SLEEP (TOTAL_TIME w + dt)).
    set (w2 := set_CURRENT_STATE SLEEP (timer_reset (killed p (ticked dt w)))).
    destruct (light_frame b w2) as (Est & _ & Estart & _ & _ & _ & Eps & Etr).
    split; [by rewrite Est|]. split; [done|]. split; [|split].
    + apply emitted_app. rewrite Etr. simpl.
      by rewrite <- (app_assoc (A:=effect)).
    + unfold video_feed_active. rewrite Eps. simpl.
      apply quiet_existsb, sole_mark_quiet. by rewrite <- Hp.
    + by rewrite Estart.
  - intros Hle. rewrite (update_idle_poll dt env w p pr) by done.
    destruct (exited pr); simpl; [done|].
    by destruct (light_frame true (ticked dt w)) as (-> & _).
Qed.

Lemma idle_goes_to_sleep_witness :
  (TIME_BEFORE_SLEEP < TOTAL_TIME w_idle + 31 - STATE_START w_idle ->
   exists w' p,
     update 31 env0 w_idle = Returned tt w' /\
     CURRENT_STATE w' = SLEEP /\
     VIDEO_FEED_POPEN w_idle = Some p /\
     emitted w_idle w' =
       ([ETerminate p; EWait p] ++
        lamp_effects (lamp_policy SLEEP (TOTAL_TIME w_idle + 31))
          w_idle)%list /\
     video_feed_active w' = false /\
     STATE_START w' = TOTAL_TIME w_idle + 31) /\
  (TOTAL_TIME w_idle + 31 - STATE_START w_idle <= TIME_BEFORE_SLEEP ->
   CURRENT_STATE (world_of (update 31 env0 w_idle)) = IDLE).
Proof.
  apply (idle_goes_to_sleep 31 env0 w_idle).
  - exists [Press]. vm_compute. reflexivity.
  - vm_compute. reflexivity.
Defined.



(** ** PrintCheck *)

Ltac emitted_list :=
  apply emitted_app; simpl;
  repeat (rewrite <- (app_assoc (A:=effect)); simpl);
  rewrite ?length_app, ?length_mark_exited; simpl; rewrite ?Nat.add_1_r;
  try reflexivity.

Lemma update_print_check_fire dt env w p :
  is_Some (BUTTON_LED w) ->
  CURRENT_STATE w = PRINT_CHECK ->
  PRINT_CHECK_DURATION < TOTAL_TIME w + dt - STATE_START w ->
  PHOTO_PREVIEW_POPEN w = Some p ->
  update dt env w =
  Returned tt
    (light true
       (set_CURRENT_STATE IDLE
          (timer_reset
             (feed_started
                (print_requested (CURRENT_PHOTO_PATH w)
                   (killed p (ticked dt w))))))).
Proof.
  intros Hled Hst Hlt Hp.
  rewrite (update_via_transition dt env w
             (set_CURRENT_STATE IDLE
                (timer_reset
                   (feed_started
                      (print_requested (CURRENT_PHOTO_PATH w)
                         (killed p (ticked dt w))))))).
  - reflexivity.
  - by apply (transition_print_check_fire env (ticked dt w) p).
  - exact Hled.
Qed.

Lemma update_print_check_wait dt env w :
  is_Some (BUTTON_LED w) ->
  CURRENT_STATE w = PRINT_CHECK ->
  TOTAL_TIME w + dt - STATE_START w <= PRINT_CHECK_DURATION ->
  update dt env w = Returned tt (light true (ticked dt w)).
Proof.
  intros Hled Hst Hle.
  rewrite (update_via_transition dt env w (ticked dt w)).
  - simpl. by rewrite Hst.
  - by apply transition_print_check_wait.
  - exact Hled.
Qed.

(** C5: in PrintCheck the preview handle refers to a feh process and a photo
    path is stored.  A press returns in Idle having, in this order,
    terminated and waited for the preview and then spawned the feed; a tick
    past [PRINT_CHECK_DURATION] does the same with one print request for the
    stored path in between; a tick at or below the bound stays in
    PrintCheck and touches no process.  No other event leaves PrintCheck,
    so the feed is never spawned before the preview is gone. *)
Theorem print_check_exit_order (dt : Q) (env : capture_env) (w : world) :
  reachable w ->
  CURRENT_STATE w = PRINT_CHECK ->
  exists p path q,
    PHOTO_PREVIEW_POPEN w = Some p /\
    is_preview <$> (cmd <$> procs w !! p) = Some true /\
    CURRENT_PHOTO_PATH w = Some path /\
    q = length (procs w) /\
    (exists w',
        step Press w = Returned tt w' /\
        CURRENT_STATE w' = IDLE /\
        emitted w w' =
          [ETerminate p; EWait p;
           EPopen q VideoCapture; EPopen (S q) (VideoRender q)]) /\
    (PRINT_CHECK_DURATION < TOTAL_TIME w + dt - STATE_START w ->
     exists w',
       update dt env w = Returned tt w' /\
       CURRENT_STATE w' = IDLE /\
       emitted w w' =
         ([ETerminate p; EWait p;
           EPrintRequest (Some path); EStdout "TODO PRINT PHOTO";
           EPopen q VideoCapture; EPopen (S q) (VideoRender q)]
          ++ lamp_effects true w)%list) /\
    (TOTAL_TIME w + dt - STATE_START w <= PRINT_CHECK_DURATION ->
     exists w',
       update dt env w = Returned tt w' /\
       CURRENT_STATE w' = PRINT_CHECK /\
       emitted w w' = lamp_effects true w) /\
    (forall e,
        CURRENT_STATE (world_of (step e w)) <> PRINT_CHECK ->
        e = Press \/
        exists dt' env',
          e = Tick dt' env' /\
          PRINT_CHECK_DURATION < TOTAL_TIME w + dt' - STATE_START w).
Proof.
  intros Hreach Hst. destruct (reachable_inv _ Hreach) as [Hled Hs].
  unfold supervised in Hs. rewrite Hst in Hs.
  destruct Hs as ((p & pr & Hp & Hpr & Hk) & Hsole & Hq & [path Hpath]).
  exists p, path, (length (procs w)).
  split; [done|]. split; [by rewrite Hpr; simpl; rewrite Hk|].
  split; [done|]. split; [done|].
  split; [|split; [|split]].
  - eexists. split; [by apply (button_event_print_check PIN_BUTTON w p)|].
    split; [done|]. emitted_list.
  - intros Hlt. eexists.
    split; [by apply (update_print_check_fire dt env w p)|].
    match goal with |- context [light true ?w2] =>
      destruct (light_frame true w2) as (-> & _ & _ & _ & _ & _ & _ & Etr)
    end.
    split; [done|]. apply emitted_app. rewrite Etr. simpl.
    repeat (rewrite <- (app_assoc (A:=effect)); simpl).
    rewrite ?length_app, ?length_mark_exited. simpl. rewrite ?Nat.add_1_r.
    by rewrite Hpath.
  - intros Hle. eexists. split; [by apply update_print_check_wait|].
    destruct (light_frame true (ticked dt w))
      as (-> & _ & _ & _ & _ & _ & _ & Etr).
    split; [done|]. apply emitted_app. by rewrite Etr.
  - intros [dt' env'| |q] Hout; [|by left|].
    + right. exists dt', env'. split; [done|].
      destruct (Qlt_le_dec PRINT_CHECK_DURATION
                  (TOTAL_TIME w + dt' - STATE_START w)) as [Hlt|Hle]; [done|].
      exfalso. apply Hout. simpl.
      rewrite update_print_check_wait by done. unfold world_of.
      by destruct (light_frame true (ticked dt' w)) as (-> & _).
    + exfalso. apply Hout. exact Hst.
Qed.

Lemma print_check_exit_order_witness :
  exists p path q,
    PHOTO_PREVIEW_POPEN w_print_check = Some p /\
    is_preview <$> (cmd <$> procs w_print_check !! p) = Some true /\
    CURRENT_PHOTO_PATH w_print_check = Some path /\
    q = length (procs w_print_check) /\
    (exists w',
        step Press w_print_check = Returned tt w' /\
        CURRENT_STATE w' = IDLE /\
        emitted w_print_check w' =
          [ETerminate p; EWait p;
           EPopen q VideoCapture; EPopen (S q) (VideoRender q)]) /\
    (PRINT_CHECK_DURATION <
     TOTAL_TIME w_print_check + 11 - STATE_START w_print_check ->
     exists w',
       update 11 env0 w_print_check = Returned tt w' /\
       CURRENT_STATE w' = IDLE /\
       emitted w_print_check w' =
         ([ETerminate p; EWait p;
           EPrintRequest (Some path); EStdout "TODO PRINT PHOTO";
           EPopen q VideoCapture; EPopen (S q) (VideoRender q)]
          ++ lamp_effects true w_print_check)%list) /\
    (TOTAL_TIME w_print_check + 11 - STATE_START w_print_check
     <= PRINT_CHECK_DURATION ->
     exists w',
       update 11 env0 w_print_check = Returned tt w' /\
       CURRENT_STATE w' = PRINT_CHECK /\
       emitted w_print_check w' = lamp_effects true w_print_check) /\
    (forall e,
        CURRENT_STATE (world_of (step e w_print_check)) <> PRINT_CHECK ->
        e = Press \/
        exists dt' env',
          e = Tick dt' env' /\
          PRINT_CHECK_DURATION <
          TOTAL_TIME w_print_check + dt' - STATE_START w_print_check).
Proof.
  apply (print_check_exit_order 11 env0 w_print_check).
  - exists [Press; Press; Tick 9 env0]. vm_compute. reflexivity.
  - vm_compute. reflexivity.
Defined.

(** ** Countdown *)

Lemma update_countdown_wait dt env w :
  is_Some (BUTTON_LED w) ->
  CURRENT_STATE w = COUNTDOWN ->
  TOTAL_TIME w + dt - STATE_START w <= COUNTDOWN_DURATION ->
  update dt env w = Returned tt (light false (ticked dt w)).
Proof.
  intros Hled Hst Hle.
  rewrite (update_via_transition dt env w (ticked dt w)).
  - simpl. by rewrite Hst.
  - by apply transition_countdown_wait.
  - exact Hled.
Qed.

Lemma update_countdown_fire dt env w p :
  is_Some (BUTTON_LED w) ->
  CURRENT_STATE w = COUNTDOWN ->
  COUNTDOWN_DURATION < TOTAL_TIME w + dt - STATE_START w ->
  VIDEO_FEED_POPEN w = Some p ->
  gphoto2_returncode env = 0%Z ->
  update dt env w =
  Returned tt
    (light true
       (set_CURRENT_STATE PRINT_CHECK
          (timer_reset
             (preview_started (photo_name env)
                (set_CURRENT_PHOTO_PATH (Some (photo_name env))
                   (photographed env (killed p (ticked dt w)))))))).
Proof.
  intros Hled Hst Hlt Hp Hrc.
  rewrite (update_via_transition dt env w
             (set_CURRENT_STATE PRINT_CHECK
                (timer_reset
                   (preview_started (photo_name env)
                      (set_CURRENT_PHOTO_PATH (Some (photo_name env))
                         (photographed env (killed p (ticked dt w)))))))).
  - reflexivity.
  - by apply (transition_countdown_fire env (ticked dt w) p).
  - exact Hled.
Qed.

Lemma captures_app l1 l2 :
  captures (l1 ++ l2) = (captures l1 + captures l2)%nat.
Proof. unfold captures. by rewrite List.filter_app, length_app. Qed.

Lemma captures_gpio l : forallb is_gpio l = true -> captures l = 0%nat.
Proof.
  unfold captures. induction l as [|e l IH]; [done|]. simpl.
  intros [He Hl]%andb_true_iff. destruct e; try done. simpl. by apply IH.
Qed.

Lemma lamp_effects_gpio b w : forallb is_gpio (lamp_effects b w) = true.
Proof.
  unfold lamp_effects. destruct (BUTTON_LED w) as [led|]; [|done].
  by destruct (Bool.eqb _ _).
Qed.

Lemma countdown_pending_run evs w :
  reachable w ->
  CURRENT_STATE w = COUNTDOWN ->
  countdown_pending (TOTAL_TIME w) (STATE_START w) evs = true ->
  exists w1 l,
    run evs w = Returned tt w1 /\
    reachable w1 /\
    CURRENT_STATE w1 = COUNTDOWN /\
    STATE_START w1 = STATE_START w /\
    CURRENT_PHOTO_PATH w1 = CURRENT_PHOTO_PATH w /\
    VIDEO_FEED_POPEN w1 = VIDEO_FEED_POPEN w /\
    PHOTO_PREVIEW_POPEN w1 = PHOTO_PREVIEW_POPEN w /\
    trace w1 = (trace w ++ l)%list /\
    forallb is_gpio l = true.
Proof.
  revert w. induction evs as [|e evs IH]; intros w Hreach Hst Hpend.
  - exists w, []. rewrite app_nil_r. done.
  - assert (exists w0 l0,
               step e w = Returned tt w0 /\
               CURRENT_STATE w0 = COUNTDOWN /\
               STATE_START w0 = STATE_START w /\
               CURRENT_PHOTO_PATH w0 = CURRENT_PHOTO_PATH w /\
               VIDEO_FEED_POPEN w0 = VIDEO_FEED_POPEN w /\
               PHOTO_PREVIEW_POPEN w0 = PHOTO_PREVIEW_POPEN w /\
               trace w0 = (trace w ++ l0)%list /\
               forallb is_gpio l0 = true /\
               countdown_pending (TOTAL_TIME w0) (STATE_START w0) evs = true)
      as (w0 & l0 & Hstep & Hst0 & Hstart0 & Hphoto0 & Hfeed0 & Hprev0 &
          Htr0 & Hg0 & Hpend0).
    { destruct (reachable_inv _ Hreach) as [Hled _].
      destruct e as [dt env| |q]; simpl in Hpend.
      - apply andb_true_iff in Hpend as [Hle Hpend].
        apply Qle_bool_iff in Hle.
        exists (light false (ticked dt w)), (lamp_effects false w).
        split; [by apply update_countdown_wait|].
        destruct (light_frame false (ticked dt w))
          as (-> & -> & -> & -> & -> & -> & _ & ->).
        by rewrite lamp_effects_gpio.
      - exists w, []. rewrite app_nil_r.
        split; [by apply button_event_countdown|]. done.
      - exists (set_procs (mark_exited q (procs w)) w), [].
        simpl. rewrite app_nil_r. done. }
    destruct (IH w0) as (w1 & l1 & Hrun & Hreach1 & Hst1 & Hstart1 & Hphoto1 &
                         Hfeed1 & Hprev1 & Htr1 & Hg1);
      [by eapply reachable_step | done | done |].
    exists w1, (l0 ++ l1)%list. rewrite run_cons, Hstep.
    split; [done|]. split; [done|]. split; [done|].
    split; [congruence|]. split; [congruence|]. split; [congruence|].
    split; [congruence|].
    split; [by rewrite Htr1, Htr0, <- (app_assoc (A:=effect))|].
    by rewrite forallb_app, Hg0, Hg1.
Qed.

(** C4, amended: take a reachable world in Countdown and any events after
    it during which no tick brings the elapsed time above
    [COUNTDOWN_DURATION].  A press changes nothing, before or after them;
    the run returns, still in Countdown with the same entry time and stored
    photo, and has captured nothing.  The first tick that does exceed the
    duration terminates and waits for the feed and runs the capture.  If
    the capture succeeds the tick returns in PrintCheck, having then stored
    the path, spawned the preview of that path and reset the timer, in this
    order; counted from the start, that is exactly one capture.  If the
    capture fails the tick raises [CalledProcessError]: the state is still
    Countdown, and entry time, stored path and preview handle are
    untouched. *)
Theorem countdown_fires_once
  (evs : list event) (dt : Q) (env : capture_env) (w : world) :
  reachable w ->
  CURRENT_STATE w = COUNTDOWN ->
  countdown_pending (TOTAL_TIME w) (STATE_START w) evs = true ->
  exists w1 p q,
    step Press w = Returned tt w /\
    run evs w = Returned tt w1 /\
    step Press w1 = Returned tt w1 /\
    CURRENT_STATE w1 = COUNTDOWN /\
    STATE_START w1 = STATE_START w /\
    CURRENT_PHOTO_PATH w1 = CURRENT_PHOTO_PATH w /\
    captures (emitted w w1) = 0%nat /\
    VIDEO_FEED_POPEN w1 = Some p /\
    q = length (procs w1) /\
    (COUNTDOWN_DURATION < TOTAL_TIME w1 + dt - STATE_START w1 ->
     gphoto2_returncode env = 0%Z ->
     exists w',
       update dt env w1 = Returned tt w' /\
       w' = light true
              (set_CURRENT_STATE PRINT_CHECK
                 (timer_reset
                    (preview_started (photo_name env)
                       (set_CURRENT_PHOTO_PATH (Some (photo_name env))
                          (photographed env (killed p (ticked dt w1))))))) /\
       CURRENT_STATE w' = PRINT_CHECK /\
       CURRENT_PHOTO_PATH w' = Some (photo_name env) /\
       PHOTO_PREVIEW_POPEN w' = Some q /\
       STATE_START w' = TOTAL_TIME w' /\
       emitted w1 w' =
         ([ETerminate p; EWait p;
           ECheckCall (photo_argv (photo_name env));
           EStdout ("took photo as " ++ photo_name env ++ ".");
           EPopen q (PhotoPreview (photo_name env))]
          ++ lamp_effects true w1)%list /\
       captures (emitted w w') = 1%nat) /\
    (COUNTDOWN_DURATION < TOTAL_TIME w1 + dt - STATE_START w1 ->
     gphoto2_returncode env <> 0%Z ->
     exists w',
       update dt env w1
       = Raised (CalledProcessError (gphoto2_returncode env)) w' /\
       CURRENT_STATE w' = COUNTDOWN /\
       STATE_START w' = STATE_START w1 /\
       CURRENT_PHOTO_PATH w' = CURRENT_PHOTO_PATH w1 /\
       PHOTO_PREVIEW_POPEN w' = PHOTO_PREVIEW_POPEN w1 /\
       emitted w1 w' =
         [ETerminate p; EWait p; ECheckCall (photo_argv (photo_name env))]).
Proof.
  intros Hreach Hst Hpend.
  destruct (countdown_pending_run evs w Hreach Hst Hpend)
    as (w1 & l & Hrun & Hreach1 & Hst1 & Hstart1 & Hphoto1 & _ & _ &
        Htr1 & Hg1).
  destruct (reachable_inv _ Hreach1) as [Hled1 Hs1].
  unfold supervised in Hs1. rewrite Hst1 in Hs1.
  destruct Hs1 as ((p & pr & Hp & Hpr & Hk) & _).
  exists w1, p, (length (procs w1)).
  split; [by apply button_event_countdown|]. split; [done|].
  split; [by apply button_event_countdown|].
  split; [done|]. split; [done|]. split; [done|].
  split; [by rewrite (emitted_app w w1 l Htr1); apply captures_gpio|].
  split; [done|]. split; [done|].
  split; cycle 1.
  { intros Hlt Hrc. eexists. split.
    { apply update_via_raise.
      by apply (transition_countdown_fail env (ticked dt w1) p). }
    simpl. repeat (split; [done|]). emitted_list. }
  intros Hlt Hrc. eexists.
  split; [by apply (update_countdown_fire dt env w1 p)|].
  split; [reflexivity|].
  match goal with |- context [light true ?w2] =>
    destruct (light_frame true w2) as (-> & -> & -> & -> & _ & -> & _ & Etr)
  end.
  split; [done|]. split; [done|].
  split; [by simpl; rewrite length_mark_exited|]. split; [done|].
  assert (trace
            (set_CURRENT_STATE PRINT_CHECK
               (timer_reset
                  (preview_started (photo_name env)
                     (set_CURRENT_PHOTO_PATH (Some (photo_name env))
                        (photographed env (killed p (ticked dt w1)))))))
          = (trace w1 ++
             [ETerminate p; EWait p;
              ECheckCall (photo_argv (photo_name env));
              EStdout ("took photo as " ++ photo_name env ++ ".");
              EPopen (length (procs w1)) (PhotoPreview (photo_name env))])%list)
    as Etr2.
  { simpl. repeat (rewrite <- (app_assoc (A:=effect)); simpl).
    by rewrite length_mark_exited. }
  rewrite Etr2 in Etr.
  change (lamp_effects true _) with (lamp_effects true w1) in Etr.
  split.
  - apply emitted_app. rewrite Etr. by rewrite <- (app_assoc (A:=effect)).
  - rewrite (emitted_app w _ (l ++
               [ETerminate p; EWait p;
                ECheckCall (photo_argv (photo_name env));
                EStdout ("took photo as " ++ photo_name env ++ ".");
                EPopen (length (procs w1)) (PhotoPreview (photo_name env))]
               ++ lamp_effects true w1)%list).
    + rewrite !captures_app, (captures_gpio l Hg1),
        (captures_gpio _ (lamp_effects_gpio true w1)). reflexivity.
    + rewrite Etr, Htr1. by rewrite <- !(app_assoc (A:=effect)).
Qed.

Lemma countdown_fires_once_witness :
  (
    exists w1 p q,
      step Press w_countdown = Returned tt w_countdown /\
      run [Tick 5 env0; Press; Tick 3 env0] w_countdown = Returned tt w1 /\
      step Press w1 = Returned tt w1 /\
      CURRENT_STATE w1 = COUNTDOWN /\
      STATE_START w1 = STATE_START w_countdown /\
      CURRENT_PHOTO_PATH w1 = CURRENT_PHOTO_PATH w_countdown /\
      captures (emitted w_countdown w1) = 0%nat /\
      VIDEO_FEED_POPEN w1 = Some p /\
      q = length (procs w1) /\
      (COUNTDOWN_DURATION < TOTAL_TIME w1 + (1 # 20) - STATE_START w1 ->
       gphoto2_returncode env0 = 0%Z ->
       exists w',
         update (1 # 20) env0 w1 = Returned tt w' /\
         w' = light true
                (set_CURRENT_STATE PRINT_CHECK
                   (timer_reset
                      (preview_started (photo_name env0)
                         (set_CURRENT_PHOTO_PATH (Some (photo_name env0))
                            (photographed env0
                               (killed p (ticked (1 # 20) w1))))))) /\
         CURRENT_STATE w' = PRINT_CHECK /\
         CURRENT_PHOTO_PATH w' = Some (photo_name env0) /\
         PHOTO_PREVIEW_POPEN w' = Some q /\
         STATE_START w' = TOTAL_TIME w' /\
         emitted w1 w' =
           ([ETerminate p; EWait p;
             ECheckCall (photo_argv (photo_name env0));
             EStdout ("took photo as " ++ photo_name env0 ++ ".");
             EPopen q (PhotoPreview (photo_name env0))]
            ++ lamp_effects true w1)%list /\
         captures (emitted w_countdown w') = 1%nat) /\
      (COUNTDOWN_DURATION < TOTAL_TIME w1 + (1 # 20) - STATE_START w1 ->
       gphoto2_returncode env0 <> 0%Z ->
       exists w',
         update (1 # 20) env0 w1
         = Raised (CalledProcessError (gphoto2_returncode env0)) w' /\
         CURRENT_STATE w' = COUNTDOWN /\
         STATE_START w' = STATE_START w1 /\
         CURRENT_PHOTO_PATH w' = CURRENT_PHOTO_PATH w1 /\
         PHOTO_PREVIEW_POPEN w' = PHOTO_PREVIEW_POPEN w1 /\
         emitted w1 w' =
           [ETerminate p; EWait p; ECheckCall (photo_argv (photo_name env0))])
  ) /\
  (
    exists w1 p q,
      step Press w_countdown = Returned tt w_countdown /\
      run [Tick 5 env_fail; Press; Tick 3 env_fail] w_countdown
      = Returned tt w1 /\
      step Press w1 = Returned tt w1 /\
      CURRENT_STATE w1 = COUNTDOWN /\
      STATE_START w1 = STATE_START w_countdown /\
      CURRENT_PHOTO_PATH w1 = CURRENT_PHOTO_PATH w_countdown /\
      captures (emitted w_countdown w1) = 0%nat /\
      VIDEO_FEED_POPEN w1 = Some p /\
      q = length (procs w1) /\
      (COUNTDOWN_DURATION < TOTAL_TIME w1 + (1 # 20) - STATE_START w1 ->
       gphoto2_returncode env_fail = 0%Z ->
       exists w',
         update (1 # 20) env_fail w1 = Returned tt w' /\
         w' = light true
                (set_CURRENT_STATE PRINT_CHECK
                   (timer_reset
                      (preview_started (photo_name env_fail)
                         (set_CURRENT_PHOTO_PATH (Some (photo_name env_fail))
                            (photographed env_fail
                               (killed p (ticked (1 # 20) w1))))))) /\
         CURRENT_STATE w' = PRINT_CHECK /\
         CURRENT_PHOTO_PATH w' = Some (photo_name env_fail) /\
         PHOTO_PREVIEW_POPEN w' = Some q /\
         STATE_START w' = TOTAL_TIME w' /\
         emitted w1 w' =
           ([ETerminate p; EWait p;
             ECheckCall (photo_argv (photo_name env_fail));
             EStdout ("took photo as " ++ photo_name env_fail ++ ".");
             EPopen q (PhotoPreview (photo_name env_fail))]
            ++ lamp_effects true w1)%list /\
         captures (emitted w_countdown w') = 1%nat) /\
      (COUNTDOWN_DURATION < TOTAL_TIME w1 + (1 # 20) - STATE_START w1 ->
       gphoto2_returncode env_fail <> 0%Z ->
       exists w',
         update (1 # 20) env_fail w1
         = Raised (CalledProcessError (gphoto2_returncode env_fail)) w' /\
         CURRENT_STATE w' = COUNTDOWN /\
         STATE_START w' = STATE_START w1 /\
         CURRENT_PHOTO_PATH w' = CURRENT_PHOTO_PATH w1 /\
         PHOTO_PREVIEW_POPEN w' = PHOTO_PREVIEW_POPEN w1 /\
         emitted w1 w' =
           [ETerminate p; EWait p;
            ECheckCall (photo_argv (photo_name env_fail))])
  ).
Proof.
  split.
  - apply (countdown_fires_once
             [Tick 5 env0; Press; Tick 3 env0] (1 # 20) env0 w_countdown).
    + exists [Press; Press]. vm_compute. reflexivity.
    + vm_compute. reflexivity.
    + vm_compute. reflexivity.
  - apply (countdown_fires_once
             [Tick 5 env_fail; Press; Tick 3 env_fail] (1 # 20) env_fail
             w_countdown).
    + exists [Press; Press]. vm_compute. reflexivity.
    + vm_compute. reflexivity.
    + vm_compute. reflexivity.
Defined.

(** C4, as stated, fails: the first tick past the countdown duration need
    not reach PrintCheck.  With a capture that fails, the tick raises; the
    state is still Countdown, no photo path is stored and no preview is
    started. *)
Lemma countdown_expiry_can_abort :
  reachable w_countdown /\
  CURRENT_STATE w_countdown = COUNTDOWN /\
  COUNTDOWN_DURATION < TOTAL_TIME w_countdown + 9 - STATE_START w_countdown /\
  raises (update 9 env_fail w_countdown) = true /\
  CURRENT_STATE (world_of (update 9 env_fail w_countdown)) = COUNTDOWN /\
  CURRENT_PHOTO_PATH (world_of (update 9 env_fail w_countdown)) = None /\
  PHOTO_PREVIEW_POPEN (world_of (update 9 env_fail w_countdown)) = None /\
  ~ (forall dt env w,
        reachable w ->
        CURRENT_STATE w = COUNTDOWN ->
        COUNTDOWN_DURATION < TOTAL_TIME w + dt - STATE_START w ->
        CURRENT_STATE (world_of (update dt env w)) = PRINT_CHECK).
Proof.
  assert (reachable w_countdown) as Hr.
  { exists [Press; Press]. vm_compute. reflexivity. }
  split; [exact Hr|]. split; [vm_compute; reflexivity|].
  split; [vm_compute; reflexivity|]. split; [vm_compute; reflexivity|].
  split; [vm_compute; reflexivity|]. split; [vm_compute; reflexivity|].
  split; [vm_compute; reflexivity|].
  intros Hall.
  assert (CURRENT_STATE (world_of (update 9 env_fail w_countdown))
          = PRINT_CHECK) as Hpc.
  { apply Hall; [exact Hr | |]; vm_compute; reflexivity. }
  vm_compute in Hpc. discriminate.
Qed.

(** ** Feed and preview *)

Lemma inv_exclusive w : inv w -> exclusive w = true.
Proof.
  intros [_ Hs]. unfold supervised in Hs.
  unfold exclusive, video_feed_active, photo_preview_active.
  destruct (CURRENT_STATE w).
  - destruct Hs as (_ & _ & Hq%quiet_existsb). by rewrite Hq, andb_false_r.
  - destruct Hs as (_ & _ & Hq%quiet_existsb). by rewrite Hq, andb_false_r.
  - destruct Hs as (_ & _ & Hq%quiet_existsb & _). by rewrite Hq.
  - destruct Hs as (Hq%quiet_existsb & _). by rewrite Hq.
Qed.

Lemma button_event_returns ch w :
  inv w -> exists w', button_event ch w = Returned tt w'.
Proof.
  intros [_ Hs]. unfold supervised in Hs.
  destruct (CURRENT_STATE w) eqn:Hst.
  - eexists. by apply button_event_idle.
  - eexists. by apply button_event_countdown.
  - destruct Hs as ((p & pr & Hp & _) & _).
    eexists. by apply (button_event_print_check ch w p).
  - eexists. by apply button_event_sleep.
Qed.

Lemma step_exclusive e w : inv w -> exclusive (world_of (step e w)) = true.
Proof.
  intros Hinv. destruct (step e w) as [[] w'|x w'] eqn:Hstep.
  - apply inv_exclusive. by eapply inv_step.
  - destruct e as [dt env| |q]; simpl in Hstep.
    + apply update_Raised in Hstep; [|done].
      apply transition_Raised in Hstep; [|by apply inv_accumulate].
      destruct Hstep as [(_ & _ & _ & _ & ->)|
                         (Hst & _ & _ & _ & p & Hp & ->)].
      * by apply inv_exclusive.
      * destruct Hinv as [_ Hs]. unfold supervised in Hs.
        simpl in Hst. rewrite Hst in Hs. destruct Hs as (_ & Hsole & _).
        simpl in Hp.
        unfold exclusive, video_feed_active. simpl.
        assert (existsb (live is_feed) (mark_exited p (procs w)) = false)
          as ->; [|done].
        apply quiet_existsb, sole_mark_quiet. by rewrite <- Hp.
    + destruct (button_event_returns PIN_BUTTON w Hinv) as [w2 Hw2].
      by rewrite Hw2 in Hstep.
    + done.
Qed.

Lemma lamp_effects_no_spawn b w :
  existsb spawns_feed (lamp_effects b w) = false /\
  existsb spawns_preview (lamp_effects b w) = false.
Proof.
  unfold lamp_effects. destruct (BUTTON_LED w) as [led|]; [|done].
  by destruct (Bool.eqb _ _).
Qed.

Ltac light_trace :=
  unfold world_of;
  match goal with
  | |- context [light ?b ?w2] =>
      destruct (light_frame b w2) as (_ & _ & _ & _ & _ & _ & _ & ->)
  end;
  simpl; repeat (rewrite <- (app_assoc (A:=effect)); simpl).

Lemma step_trace e w :
  inv w ->
  exists l,
    trace (world_of (step e w)) = (trace w ++ l)%list /\ step_shape w l.
Proof.
  intros Hinv. pose proof Hinv as [Hled Hs]. unfold supervised in Hs.
  destruct e as [dt env| |q]; simpl.
  - destruct (CURRENT_STATE w) eqn:Hst.
    + destruct Hs as ((p & pr & Hp & Hpr & Hk) & _).
      destruct (Qlt_le_dec TIME_BEFORE_SLEEP
                  (TOTAL_TIME w + dt - STATE_START w)) as [Hlt|Hle].
      * rewrite (update_idle_timeout dt env w p) by done. light_trace.
        eexists. split; [reflexivity|]. right. right. left.
        exists p. eexists. split; [by rewrite Hst|]. split; [done|].
        split; [reflexivity|]. apply lamp_effects_no_spawn.
      * rewrite (update_idle_poll dt env w p pr) by done.
        destruct (exited pr).
        -- exists []. simpl. rewrite app_nil_r. split; [done|]. by left.
        -- light_trace. eexists. split; [reflexivity|]. left.
           apply lamp_effects_gpio.
    + destruct Hs as ((p & pr & Hp & Hpr & Hk) & _).
      destruct (Qlt_le_dec COUNTDOWN_DURATION
                  (TOTAL_TIME w + dt - STATE_START w)) as [Hlt|Hle].
      * destruct (Z.eq_dec (gphoto2_returncode env) 0%Z) as [Hrc|Hrc].
        -- rewrite (update_countdown_fire dt env w p) by done. light_trace.
           eexists. split; [reflexivity|]. right. right. left.
           exists p. eexists. split; [by rewrite Hst|]. split; [done|].
           split; [reflexivity|]. simpl. apply lamp_effects_no_spawn.
        -- rewrite (update_via_raise dt env w
                      (CalledProcessError (gphoto2_returncode env))
                      (set_trace
                         (trace (killed p (ticked dt w)) ++
                          [ECheckCall (photo_argv (photo_name env))])
                         (killed p (ticked dt w))))
             by (by apply (transition_countdown_fail env (ticked dt w) p)).
           simpl. rewrite <- (app_assoc (A:=effect)). simpl.
           eexists. split; [reflexivity|]. right. right. left.
           exists p. eexists. split; [by rewrite Hst|]. split; [done|].
           split; [reflexivity|]. done.
      * rewrite update_countdown_wait by done. light_trace.
        eexists. split; [reflexivity|]. left. apply lamp_effects_gpio.
    + destruct Hs as ((p & pr & Hp & Hpr & Hk) & _).
      destruct (Qlt_le_dec PRINT_CHECK_DURATION
                  (TOTAL_TIME w + dt - STATE_START w)) as [Hlt|Hle].
      * rewrite (update_print_check_fire dt env w p) by done. light_trace.
        eexists. split; [reflexivity|]. right. right. right.
        exists p. eexists. split; [done|]. split; [done|].
        split; [reflexivity|]. simpl. apply lamp_effects_no_spawn.
      * rewrite update_print_check_wait by done. light_trace.
        eexists. split; [reflexivity|]. left. apply lamp_effects_gpio.
    + rewrite update_sleep by done. light_trace.
      eexists. split; [reflexivity|]. left. apply lamp_effects_gpio.
  - destruct (CURRENT_STATE w) eqn:Hst.
    + rewrite button_event_idle by done. simpl.
      exists []. rewrite app_nil_r. split; [done|]. by left.
    + rewrite button_event_countdown by done. simpl.
      exists []. rewrite app_nil_r. split; [done|]. by left.
    + destruct Hs as ((p & pr & Hp & Hpr & Hk) & _).
      rewrite (button_event_print_check _ w p) by done. simpl.
      repeat (rewrite <- (app_assoc (A:=effect)); simpl).
      eexists. split; [reflexivity|]. right. right. right.
      exists p. eexists. split; [done|]. split; [done|].
      split; [reflexivity|]. done.
    + rewrite button_event_sleep by done. simpl.
      repeat (rewrite <- (app_assoc (A:=effect)); simpl).
      eexists. split; [reflexivity|]. right. left. done.
  - exists []. rewrite app_nil_r. split; [done|]. by left.
Qed.

Lemma gpio_no_spawn l :
  forallb is_gpio l = true ->
  existsb spawns_feed l = false /\ existsb spawns_preview l = false.
Proof.
  induction l as [|e l IH]; [done|]. simpl.
  intros [He Hl]%andb_true_iff. destruct e; try done. simpl. by apply IH.
Qed.

(** C2: in every reachable world, and in the world every event leads to
    from there (returned or raised), no gphoto2 feed process and feh
    preview process are alive together.  An event that spawns the preview
    has first terminated and waited for the feed behind the handle, and
    spawns no feed after that; an event that spawns the feed out of
    PrintCheck has first terminated and waited for the preview behind the
    handle, and spawns no preview after that. *)
Theorem feed_and_preview_exclusive (e : event) (w : world) :
  reachable w ->
  exclusive w = true /\
  exclusive (world_of (step e w)) = true /\
  (existsb spawns_preview (emitted w (world_of (step e w))) = true ->
   exists p rest,
     VIDEO_FEED_POPEN w = Some p /\
     emitted w (world_of (step e w)) = ETerminate p :: EWait p :: rest /\
     existsb spawns_feed rest = false) /\
  (CURRENT_STATE w = PRINT_CHECK ->
   existsb spawns_feed (emitted w (world_of (step e w))) = true ->
   exists p rest,
     PHOTO_PREVIEW_POPEN w = Some p /\
     emitted w (world_of (step e w)) = ETerminate p :: EWait p :: rest /\
     existsb spawns_preview rest = false).
Proof.
  intros Hreach. apply reachable_inv in Hreach as Hinv.
  split; [by apply inv_exclusive|]. split; [by apply step_exclusive|].
  destruct (step_trace e w Hinv) as (l & Htr & Hshape).
  rewrite (emitted_app _ _ _ Htr).
  destruct Hshape as [Hg|[[Hst Hnp]|[(p & rest & Hst & Hp & -> & Hnf)|
                                      (p & rest & Hst & Hp & -> & Hnp)]]].
  - apply gpio_no_spawn in Hg as [Hf Hp]. rewrite Hf, Hp. done.
  - rewrite Hnp, Hst. done.
  - split; [intros _; by exists p, rest|]. done.
  - simpl. rewrite Hnp. split; [done|]. intros _ _. by exists p, rest.
Qed.

Lemma feed_and_preview_exclusive_witness :
  exclusive w_countdown = true /\
  exclusive (world_of (step (Tick 9 env0) w_countdown)) = true /\
  (existsb spawns_preview
     (emitted w_countdown (world_of (step (Tick 9 env0) w_countdown))) = true ->
   exists p rest,
     VIDEO_FEED_POPEN w_countdown = Some p /\
     emitted w_countdown (world_of (step (Tick 9 env0) w_countdown)) =
       ETerminate p :: EWait p :: rest /\
     existsb spawns_feed rest = false) /\
  (CURRENT_STATE w_countdown = PRINT_CHECK ->
   existsb spawns_feed
     (emitted w_countdown (world_of (step (Tick 9 env0) w_countdown))) = true ->
   exists p rest,
     PHOTO_PREVIEW_POPEN w_countdown = Some p /\
     emitted w_countdown (world_of (step (Tick 9 env0) w_countdown)) =
       ETerminate p :: EWait p :: rest /\
     existsb spawns_preview rest = false).
Proof.
  apply (feed_and_preview_exclusive (Tick 9 env0) w_countdown).
  exists [Press; Press]. vm_compute. reflexivity.
Defined.

(** ** The stored photo path *)

Lemma step_photo e w :
  (CURRENT_PHOTO_PATH (world_of (step e w)) = CURRENT_PHOTO_PATH w /\
   (CURRENT_STATE w = COUNTDOWN ->
    CURRENT_STATE (world_of (step e w)) = COUNTDOWN)) \/
  (CURRENT_STATE w = COUNTDOWN /\
   CURRENT_STATE (world_of (step e w)) = PRINT_CHECK /\
   exists dt env,
     e = Tick dt env /\
     CURRENT_PHOTO_PATH (world_of (step e w)) = Some (photo_name env)).
Proof.
  destruct e as [dt env| |q]; py_exec w; py_cases;
    first [ by left
          | right; split; [done|]; split; [done|]; by exists dt, env ].
Qed.

(** C1, as stated, fails: after PrintCheck has been left, by the press and
    by the timeout alike, the state is Idle and the photo path is still
    there. *)
Lemma photo_path_outlives_print_check :
  reachable w_cancelled /\
  CURRENT_STATE w_cancelled = IDLE /\
  CURRENT_PHOTO_PATH w_cancelled = Some "4-1_21_0.jpg" /\
  reachable w_printed /\
  CURRENT_STATE w_printed = IDLE /\
  CURRENT_PHOTO_PATH w_printed = Some "4-1_21_0.jpg" /\
  ~ (forall w, reachable w ->
               is_Some (CURRENT_PHOTO_PATH w) <->
               CURRENT_STATE w = PRINT_CHECK).
Proof.
  assert (reachable w_cancelled) as Hc.
  { exists [Press; Press; Tick 9 env0; Press]. vm_compute. reflexivity. }
  split; [exact Hc|]. split; [vm_compute; reflexivity|].
  split; [vm_compute; reflexivity|].
  split.
  { exists [Press; Press; Tick 9 env0; Tick 11 env0]. vm_compute.
    reflexivity. }
  split; [vm_compute; reflexivity|]. split; [vm_compute; reflexivity|].
  intros Hiff. destruct (Hiff w_cancelled Hc) as [Hdef _].
  assert (CURRENT_STATE w_cancelled = PRINT_CHECK) as Hst.
  { apply Hdef. vm_compute. by eexists. }
  vm_compute in Hst. discriminate.
Qed.

(** C1, amended: the photo path is unset at start; in every reachable
    world in PrintCheck it is set.  An event changes it only by the
    Countdown-to-PrintCheck tick, which stores the name of the photo just
    taken, and every event that takes Countdown to PrintCheck is such a
    tick.  No event unsets it: from PrintCheck every event, the press and
    the timeout included, leaves the path as it is. *)
Theorem photo_path_set_and_kept (e : event) (w : world) :
  reachable w ->
  CURRENT_PHOTO_PATH boot = None /\
  (CURRENT_STATE w = PRINT_CHECK -> is_Some (CURRENT_PHOTO_PATH w)) /\
  (CURRENT_PHOTO_PATH (world_of (step e w)) <> CURRENT_PHOTO_PATH w ->
   CURRENT_STATE w = COUNTDOWN /\
   CURRENT_STATE (world_of (step e w)) = PRINT_CHECK) /\
  (CURRENT_STATE w = COUNTDOWN ->
   CURRENT_STATE (world_of (step e w)) = PRINT_CHECK ->
   exists dt env,
     e = Tick dt env /\
     CURRENT_PHOTO_PATH (world_of (step e w)) = Some (photo_name env)) /\
  (is_Some (CURRENT_PHOTO_PATH w) ->
   is_Some (CURRENT_PHOTO_PATH (world_of (step e w)))) /\
  (CURRENT_STATE w = PRINT_CHECK ->
   CURRENT_PHOTO_PATH (world_of (step e w)) = CURRENT_PHOTO_PATH w).
Proof.
  intros Hreach. destruct (reachable_inv _ Hreach) as [_ Hs].
  split; [reflexivity|]. split.
  { intros Hst. unfold supervised in Hs. rewrite Hst in Hs. apply Hs. }
  destruct (step_photo e w)
    as [[Hsame Hstay]|(Hst & Hst' & dt & env & -> & Hp)].
  - split; [done|]. split.
    { intros Hst Hst'. rewrite (Hstay Hst) in Hst'. discriminate. }
    split; [by rewrite Hsame | done].
  - split; [done|]. split; [by eauto|]. split.
    + intros _. rewrite Hp. by eexists.
    + intros Hpc. rewrite Hst in Hpc. discriminate.
Qed.

Lemma photo_path_set_and_kept_witness :
  CURRENT_PHOTO_PATH boot = None /\
  (CURRENT_STATE w_print_check = PRINT_CHECK ->
   is_Some (CURRENT_PHOTO_PATH w_print_check)) /\
  (CURRENT_PHOTO_PATH (world_of (step Press w_print_check))
   <> CURRENT_PHOTO_PATH w_print_check ->
   CURRENT_STATE w_print_check = COUNTDOWN /\
   CURRENT_STATE (world_of (step Press w_print_check)) = PRINT_CHECK) /\
  (CURRENT_STATE w_print_check = COUNTDOWN ->
   CURRENT_STATE (world_of (step Press w_print_check)) = PRINT_CHECK ->
   exists dt env,
     Press = Tick dt env /\
     CURRENT_PHOTO_PATH (world_of (step Press w_print_check))
     = Some (photo_name env)) /\
  (is_Some (CURRENT_PHOTO_PATH w_print_check) ->
   is_Some (CURRENT_PHOTO_PATH (world_of (step Press w_print_check)))) /\
  (CURRENT_STATE w_print_check = PRINT_CHECK ->
   CURRENT_PHOTO_PATH (world_of (step Press w_print_check))
   = CURRENT_PHOTO_PATH w_print_check).
Proof.
  apply (photo_path_set_and_kept Press w_print_check).
  exists [Press; Press; Tick 9 env0]. vm_compute. reflexivity.
Defined.

(** ** [update] against the tick of the specification *)






(** * Further properties of the module *)

(** ** The arrows of the controller and its timer *)

(** X1: whatever the world, an event moves the state along one of the six
    arrows Sleep-press-Idle, Idle-press-Countdown, PrintCheck-press-Idle,
    Idle-tick-Sleep, Countdown-tick-PrintCheck, PrintCheck-tick-Idle, or
    leaves it where it was; a process exiting never moves it.  When the
    state has changed the entry time is the current total; when it has not,
    the entry time is what it was.  This holds for the world a raised
    exception leaves, too. *)
Theorem state_arrows_and_timer (e : event) (w : world) :
  edge e (CURRENT_STATE w) (CURRENT_STATE (world_of (step e w))) = true /\
  (CURRENT_STATE (world_of (step e w)) <> CURRENT_STATE w ->
   STATE_START (world_of (step e w)) = TOTAL_TIME (world_of (step e w))) /\
  (CURRENT_STATE (world_of (step e w)) = CURRENT_STATE w ->
   STATE_START (world_of (step e w)) = STATE_START w).
Proof.
  destruct e as [dt env| |q]; py_exec w; py_cases; cbv [world_of edge];
    (split; [reflexivity|]); split; intros H; try reflexivity;
    try discriminate; try (exfalso; by apply H).
Qed.

(** ** Every event, case by case *)

Lemma step_cases e w : inv w -> step_case w e (step e w).
Proof.
  intros [Hled Hs]. unfold supervised in Hs.
  destruct e as [dt env| |q]; simpl.
  - destruct (CURRENT_STATE w) eqn:Hst.
    + destruct Hs as ((p & pr & Hp & Hpr & Hk) & _).
      destruct (Qlt_le_dec TIME_BEFORE_SLEEP
                  (TOTAL_TIME w + dt - STATE_START w)) as [Hlt|Hle].
      * rewrite (update_idle_timeout dt env w p) by done.
        by apply case_tick_idle_timeout.
      * rewrite (update_idle_poll dt env w p pr) by done.
        destruct (exited pr) eqn:Hex.
        -- by apply (case_tick_idle_dead w dt env p pr).
        -- by apply (case_tick_idle_alive w dt env p pr).
    + destruct Hs as ((p & pr & Hp & Hpr & Hk) & _).
      destruct (Qlt_le_dec COUNTDOWN_DURATION
                  (TOTAL_TIME w + dt - STATE_START w)) as [Hlt|Hle].
      * destruct (Z.eq_dec (gphoto2_returncode env) 0%Z) as [Hrc|Hrc].
        -- rewrite (update_countdown_fire dt env w p) by done.
           by apply case_tick_countdown_fire.
        -- rewrite (update_via_raise dt env w
                      (CalledProcessError (gphoto2_returncode env))
                      (set_trace
                         (trace (killed p (ticked dt w)) ++
                          [ECheckCall (photo_argv (photo_name env))])
                         (killed p (ticked dt w))))
             by (by apply (transition_countdown_fail env (ticked dt w) p)).
           by apply case_tick_countdown_fail.
      * rewrite update_countdown_wait by done.
        by apply case_tick_countdown_wait.
    + destruct Hs as ((p & pr & Hp & Hpr & Hk) & _).
      destruct (Qlt_le_dec PRINT_CHECK_DURATION
                  (TOTAL_TIME w + dt - STATE_START w)) as [Hlt|Hle].
      * rewrite (update_print_check_fire dt env w p) by done.
        by apply case_tick_print_check_fire.
      * rewrite update_print_check_wait by done.
        by apply case_tick_print_check_wait.
    + rewrite update_sleep by done. by apply case_tick_sleep.
  - destruct (CURRENT_STATE w) eqn:Hst.
    + rewrite button_event_idle by done. by apply case_press_idle.
    + rewrite button_event_countdown by done. by apply case_press_countdown.
    + destruct Hs as ((p & pr & Hp & Hpr & Hk) & _).
      rewrite (button_event_print_check _ w p) by done.
      by apply case_press_print_check.
    + rewrite button_event_sleep by done. by apply case_press_sleep.
  - apply case_process_exit.
Qed.

Lemma light_CURRENT_STATE b w : CURRENT_STATE (light b w) = CURRENT_STATE w.
Proof. apply light_frame. Qed.
Lemma light_TOTAL_TIME b w : TOTAL_TIME (light b w) = TOTAL_TIME w.
Proof. apply light_frame. Qed.
Lemma light_STATE_START b w : STATE_START (light b w) = STATE_START w.
Proof. apply light_frame. Qed.
Lemma light_CURRENT_PHOTO_PATH b w :
  CURRENT_PHOTO_PATH (light b w) = CURRENT_PHOTO_PATH w.
Proof. apply light_frame. Qed.
Lemma light_VIDEO_FEED_POPEN b w :
  VIDEO_FEED_POPEN (light b w) = VIDEO_FEED_POPEN w.
Proof. apply light_frame. Qed.
Lemma light_PHOTO_PREVIEW_POPEN b w :
  PHOTO_PREVIEW_POPEN (light b w) = PHOTO_PREVIEW_POPEN w.
Proof. apply light_frame. Qed.
Lemma light_procs b w : procs (light b w) = procs w.
Proof. apply light_frame. Qed.
Lemma light_trace b w :
  trace (light b w) = (trace w ++ lamp_effects b w)%list.
Proof. apply light_frame. Qed.

Ltac light_simpl :=
  rewrite ?light_CURRENT_STATE, ?light_TOTAL_TIME, ?light_STATE_START,
    ?light_CURRENT_PHOTO_PATH, ?light_VIDEO_FEED_POPEN,
    ?light_PHOTO_PREVIEW_POPEN, ?light_procs, ?light_trace;
  simpl.

(** ** The button *)

(** X2: in a reachable world a press never raises.  It takes Sleep to
    Idle, Idle to Countdown and PrintCheck to Idle, and does nothing at all
    in Countdown; it leaves the clock, the lamp object and the stored photo
    path as they are. *)
Theorem press_table (w : world) :
  reachable w ->
  exists w',
    step Press w = Returned tt w' /\
    CURRENT_STATE w' =
      match CURRENT_STATE w with
      | SLEEP => IDLE
      | IDLE => COUNTDOWN
      | COUNTDOWN => COUNTDOWN
      | PRINT_CHECK => IDLE
      end /\
    (CURRENT_STATE w = COUNTDOWN -> w' = w) /\
    TOTAL_TIME w' = TOTAL_TIME w /\
    BUTTON_LED w' = BUTTON_LED w /\
    CURRENT_PHOTO_PATH w' = CURRENT_PHOTO_PATH w.
Proof.
  intros Hreach. apply reachable_inv in Hreach as Hinv.
  pose proof (step_cases Press w Hinv) as Hc.
  remember (step Press w) as o eqn:Ho. remember Press as e eqn:He.
  destruct Hc as [| | | | | | | | |Hst|Hst|Hst|p Hst Hp|];
    try discriminate He;
    eexists; (split; [reflexivity|]); rewrite Hst; simpl; by repeat split.
Qed.

Lemma press_table_witness :
  exists w',
    step Press w_print_check = Returned tt w' /\
    CURRENT_STATE w' =
      match CURRENT_STATE w_print_check with
      | SLEEP => IDLE
      | IDLE => COUNTDOWN
      | COUNTDOWN => COUNTDOWN
      | PRINT_CHECK => IDLE
      end /\
    (CURRENT_STATE w_print_check = COUNTDOWN -> w' = w_print_check) /\
    TOTAL_TIME w' = TOTAL_TIME w_print_check /\
    BUTTON_LED w' = BUTTON_LED w_print_check /\
    CURRENT_PHOTO_PATH w' = CURRENT_PHOTO_PATH w_print_check.
Proof.
  apply (press_table w_print_check).
  exists [Press; Press; Tick 9 env0]. vm_compute. reflexivity.
Defined.

Ltac light_simpl_in H :=
  rewrite ?light_CURRENT_STATE, ?light_TOTAL_TIME, ?light_STATE_START,
    ?light_CURRENT_PHOTO_PATH, ?light_VIDEO_FEED_POPEN,
    ?light_PHOTO_PREVIEW_POPEN, ?light_procs, ?light_trace in H;
  simpl in H.

(** ** Counting live processes *)

Lemma filter_none {A} (f : A -> bool) (l : list A) :
  (forall j y, l !! j = Some y -> f y = false) -> List.filter f l = [].
Proof.
  induction l as [|a l IH]; intros H; [done|]. simpl.
  rewrite (H 0%nat a eq_refl). apply IH. intros j y Hj. by apply (H (S j)).
Qed.

Lemma filter_unique {A} (f : A -> bool) (l : list A) :
  (forall i j x y,
      l !! i = Some x -> l !! j = Some y ->
      f x = true -> f y = true -> i = j) ->
  (length (List.filter f l) <= 1)%nat.
Proof.
  induction l as [|a l IH]; intros H; [simpl; lia|]. simpl.
  destruct (f a) eqn:Ha.
  - rewrite filter_none; [simpl; lia|]. intros j y Hj.
    apply not_true_iff_false. intros Hy.
    by specialize (H 0%nat (S j) a y eq_refl Hj Ha Hy).
  - apply IH. intros i j x y Hi Hj Hx Hy.
    by specialize (H (S i) (S j) x y Hi Hj Hx Hy) as [= ->].
Qed.

Lemma live_count_quiet kind ps : quiet kind ps -> live_count kind ps = 0%nat.
Proof. intros Hq. unfold live_count. by rewrite filter_none. Qed.

Lemma live_count_sole kind h ps :
  sole kind h ps -> (live_count kind ps <= 1)%nat.
Proof.
  intros Hs. apply filter_unique. intros i j x y Hi Hj Hx Hy.
  pose proof (Hs _ _ Hi Hx) as H1. pose proof (Hs _ _ Hj Hy) as H2.
  rewrite H1 in H2. by injection H2.
Qed.

Lemma live_count_app kind l1 l2 :
  live_count kind (l1 ++ l2)
  = (live_count kind l1 + live_count kind l2)%nat.
Proof. unfold live_count. by rewrite List.filter_app, length_app. Qed.

(** X3: in every reachable world at most one feed process and at most one
    preview process is alive; in Sleep neither is, in Idle and Countdown no
    preview is, in PrintCheck no feed is. *)
Theorem one_live_process_per_kind (w : world) :
  reachable w ->
  (live_count is_feed (procs w) <= 1)%nat /\
  (live_count is_preview (procs w) <= 1)%nat /\
  match CURRENT_STATE w with
  | SLEEP =>
      live_count is_feed (procs w) = 0%nat /\
      live_count is_preview (procs w) = 0%nat
  | IDLE | COUNTDOWN => live_count is_preview (procs w) = 0%nat
  | PRINT_CHECK => live_count is_feed (procs w) = 0%nat
  end.
Proof.
  intros Hreach. destruct (reachable_inv _ Hreach) as [_ Hs].
  unfold supervised in Hs. destruct (CURRENT_STATE w).
  - destruct Hs as (_ & Hsole & Hq).
    rewrite (live_count_quiet _ _ Hq).
    split; [by eapply live_count_sole|]. split; [lia | done].
  - destruct Hs as (_ & Hsole & Hq).
    rewrite (live_count_quiet _ _ Hq).
    split; [by eapply live_count_sole|]. split; [lia | done].
  - destruct Hs as (_ & Hsole & Hq & _).
    rewrite (live_count_quiet _ _ Hq).
    split; [lia|]. split; [by eapply live_count_sole | done].
  - destruct Hs as (Hf & Hp).
    rewrite (live_count_quiet _ _ Hf), (live_count_quiet _ _ Hp).
    split; [lia|]. split; [lia | done].
Qed.

Lemma one_live_process_per_kind_witness :
  (live_count is_feed (procs w_print_check) <= 1)%nat /\
  (live_count is_preview (procs w_print_check) <= 1)%nat /\
  match CURRENT_STATE w_print_check with
  | SLEEP =>
      live_count is_feed (procs w_print_check) = 0%nat /\
      live_count is_preview (procs w_print_check) = 0%nat
  | IDLE | COUNTDOWN => live_count is_preview (procs w_print_check) = 0%nat
  | PRINT_CHECK => live_count is_feed (procs w_print_check) = 0%nat
  end.
Proof.
  apply (one_live_process_per_kind w_print_check).
  exists [Press; Press; Tick 9 env0]. vm_compute. reflexivity.
Defined.

(** ** Entering Idle *)

Lemma feed_started_procs w :
  procs (feed_started w) !! length (procs w)
  = Some (mkProcess VideoCapture false) /\
  procs (feed_started w) !! S (length (procs w))
  = Some (mkProcess (VideoRender (length (procs w))) false) /\
  length (procs (feed_started w)) = S (S (length (procs w))) /\
  VIDEO_FEED_POPEN (feed_started w) = Some (length (procs w)).
Proof.
  simpl. split; [|split; [|split]].
  - rewrite lookup_app_l by (rewrite length_app; simpl; lia).
    by rewrite list_lookup_middle.
  - rewrite lookup_app_r by (rewrite length_app; simpl; lia).
    rewrite length_app. simpl.
    by replace (S (length (procs w)) - (length (procs w) + 1))%nat
      with 0%nat by lia.
  - rewrite !length_app. simpl. lia.
  - done.
Qed.

Lemma feed_started_live_count w :
  quiet is_feed (procs w) ->
  live_count is_feed (procs (feed_started w)) = 1%nat.
Proof.
  intros Hq. simpl. rewrite !live_count_app, (live_count_quiet _ _ Hq).
  reflexivity.
Qed.

(** X4: whenever an event takes the controller into Idle (out of Sleep by
    a press, out of PrintCheck by a press or by the timeout), it has spawned
    a new gphoto2 feed and an ffmpeg renderer reading from it as the two
    newest processes; the feed handle is the new gphoto2 process, it is the
    only feed alive, and no preview is alive. *)
Theorem entering_idle_starts_feed (e : event) (w w' : world) :
  reachable w ->
  CURRENT_STATE w <> IDLE ->
  step e w = Returned tt w' ->
  CURRENT_STATE w' = IDLE ->
  VIDEO_FEED_POPEN w' = Some (length (procs w)) /\
  procs w' !! length (procs w) = Some (mkProcess VideoCapture false) /\
  procs w' !! S (length (procs w))
  = Some (mkProcess (VideoRender (length (procs w))) false) /\
  length (procs w') = S (S (length (procs w))) /\
  live_count is_feed (procs w') = 1%nat /\
  live_count is_preview (procs w') = 0%nat.
Proof.
  intros Hreach Hne Hstep Hidle. apply reachable_inv in Hreach as Hinv.
  assert (live_count is_preview (procs w') = 0%nat) as Hprev.
  { assert (inv w') as [_ Hs'] by (by eapply inv_step).
    unfold supervised in Hs'. rewrite Hidle in Hs'.
    apply live_count_quiet, Hs'. }
  destruct Hinv as [_ Hs]. unfold supervised in Hs.
  pose proof (step_cases e w (reachable_inv _ Hreach)) as Hc.
  rewrite Hstep in Hc.
  inversion Hc as [dt env Hst|dt env p Hst|dt env p pr Hst|dt env p pr Hst
                  |dt env Hst|dt env p Hst|dt env p Hst|dt env Hst
                  |dt env p Hst Hlt Hp|Hst|Hst|Hst|p Hst Hp|q];
    subst; light_simpl_in Hidle; try congruence; light_simpl.
  - rewrite Hst in Hs. destruct Hs as (_ & _ & Hq & _).
    pose proof (feed_started_procs
                  (print_requested (CURRENT_PHOTO_PATH w)
                     (killed p (ticked dt w)))) as Hfs.
    pose proof (feed_started_live_count
                  (print_requested (CURRENT_PHOTO_PATH w)
                     (killed p (ticked dt w)))) as Hlc.
    simpl in Hfs, Hlc, Hprev. light_simpl_in Hprev.
    rewrite ?length_mark_exited in Hfs, Hlc, Hprev |- *.
    destruct Hfs as (H1 & H2 & H3 & H4).
    repeat split; try done. apply Hlc. by apply quiet_mark.
  - rewrite Hst in Hs. destruct Hs as (Hq & _).
    pose proof (feed_started_procs w) as (H1 & H2 & H3 & H4).
    pose proof (feed_started_live_count w Hq) as Hlc.
    simpl in H1, H2, H3, H4, Hlc, Hprev. by repeat split.
  - rewrite Hst in Hs. destruct Hs as (_ & _ & Hq & _).
    pose proof (feed_started_procs (killed p w)) as Hfs.
    pose proof (feed_started_live_count (killed p w)) as Hlc.
    simpl in Hfs, Hlc, Hprev.
    rewrite ?length_mark_exited in Hfs, Hlc, Hprev |- *.
    destruct Hfs as (H1 & H2 & H3 & H4).
    repeat split; try done. apply Hlc. by apply quiet_mark.
Qed.

Lemma entering_idle_starts_feed_witness :
  VIDEO_FEED_POPEN w_idle = Some (length (procs boot)) /\
  procs w_idle !! length (procs boot) = Some (mkProcess VideoCapture false) /\
  procs w_idle !! S (length (procs boot))
  = Some (mkProcess (VideoRender (length (procs boot))) false) /\
  length (procs w_idle) = S (S (length (procs boot))) /\
  live_count is_feed (procs w_idle) = 1%nat /\
  live_count is_preview (procs w_idle) = 0%nat.
Proof.
  apply (entering_idle_starts_feed Press boot w_idle).
  - exists []. vm_compute. reflexivity.
  - vm_compute. discriminate.
  - vm_compute. reflexivity.
  - vm_compute. reflexivity.
Defined.

(** ** The lamp pin *)

Lemma pin_writes_app n l1 l2 :
  pin_writes n (l1 ++ l2) = (pin_writes n l1 ++ pin_writes n l2)%list.
Proof.
  induction l1 as [|e l1 IH]; [done|]. simpl.
  destruct e as [| | | | | |c]; try done.
  destruct c; try done. destruct (_ =? _)%Z; simpl; by rewrite IH.
Qed.

Lemma alternating_snoc l u v :
  alternating l = true -> last l = Some u -> u <> v ->
  alternating (l ++ [v]) = true.
Proof.
  induction l as [|a l IH]; [done|]. intros Halt Hlast Hne.
  destruct l as [|b l].
  - simpl in *. injection Hlast as ->.
    rewrite andb_true_r. by apply negb_true_iff, Z.eqb_neq.
  - change (alternating (a :: b :: l))
      with (negb (a =? b)%Z && alternating (b :: l)) in Halt.
    apply andb_true_iff in Halt as [Hab Halt].
    change (alternating ((a :: b :: l) ++ [v]))
      with (negb (a =? b)%Z && alternating ((b :: l) ++ [v])).
    rewrite Hab. simpl. apply IH; [done| |done].
    by rewrite last_cons_cons in Hlast.
Qed.

Lemma lamp_wired_light b w : lamp_wired w -> lamp_wired (light b w).
Proof.
  intros (led & rest & Hled & Hpin & Hhd & Hlast & Halt).
  unfold light. rewrite Hled.
  destruct (Bool.eqb (is_on led) b) eqn:Hb.
  - exists led, rest. done.
  - exists (mkLED (pin led) b), (rest ++ [level b])%list. simpl.
    rewrite pin_writes_app. simpl. rewrite Hpin. simpl.
    change (if b then 1%Z else 0%Z) with (level b).
    split; [done|]. split; [done|]. split; [by rewrite Hhd|].
    split; [by rewrite last_snoc|].
    eapply alternating_snoc; [done | done |].
    apply Bool.eqb_false_iff in Hb. by destruct (is_on led), b.
Qed.

Lemma lamp_wired_frame w w2 :
  lamp_wired w ->
  BUTTON_LED w2 = BUTTON_LED w ->
  pin_writes PIN_LED_BUTTON (trace w2) = pin_writes PIN_LED_BUTTON (trace w) ->
  lamp_wired w2.
Proof.
  intros (led & rest & Hled & Hpin & Hhd & Hlast & Halt) Hsame Hw.
  exists led, rest. rewrite Hsame, Hw. done.
Qed.

Ltac lamp_frame :=
  first [ apply lamp_wired_light | idtac ];
  (eapply lamp_wired_frame; [eassumption | reflexivity |]);
  simpl; rewrite ?pin_writes_app; simpl; rewrite ?app_nil_r; reflexivity.

Lemma lamp_wired_step e w w' :
  inv w -> lamp_wired w -> step e w = Returned tt w' -> lamp_wired w'.
Proof.
  intros Hinv Hlw Hstep. pose proof (step_cases e w Hinv) as Hc.
  rewrite Hstep in Hc. inversion Hc; subst; lamp_frame.
Qed.

Lemma lamp_wired_boot : lamp_wired boot.
Proof. exists (mkLED 7 false), []. vm_compute. done. Qed.

Lemma reachable_lamp_wired w : reachable w -> lamp_wired w.
Proof.
  revert w. apply reachable_induction; [apply lamp_wired_boot|].
  intros w e w' Hreach Hlw Hstep.
  eapply lamp_wired_step; [by apply reachable_inv | done | done].
Qed.

(** X5: in every reachable world the level last written to the button
    lamp pin is the one the [LED] object has cached: the lamp shows what
    the program believes it shows. *)
Theorem lamp_pin_matches_cache (w : world) :
  reachable w ->
  exists led,
    BUTTON_LED w = Some led /\
    pin led = PIN_LED_BUTTON /\
    last (pin_writes PIN_LED_BUTTON (trace w))
    = Some (if is_on led then 1%Z else 0%Z).
Proof.
  intros Hreach.
  destruct (reachable_lamp_wired w Hreach)
    as (led & rest & Hled & Hpin & _ & Hlast & _).
  by exists led.
Qed.

Lemma lamp_pin_matches_cache_witness :
  exists led,
    BUTTON_LED w_print_check = Some led /\
    pin led = PIN_LED_BUTTON /\
    last (pin_writes PIN_LED_BUTTON (trace w_print_check))
    = Some (if is_on led then 1%Z else 0%Z).
Proof.
  apply (lamp_pin_matches_cache w_print_check).
  exists [Press; Press; Tick 9 env0]. vm_compute. reflexivity.
Defined.

(** X6: the writes to the button lamp pin, over any run, begin with the 0
    of [LED.__init__] and never repeat a level: the pin is written only
    when the lamp changes. *)
Theorem lamp_pin_never_rewritten (w : world) :
  reachable w ->
  (exists rest, pin_writes PIN_LED_BUTTON (trace w) = 0%Z :: rest) /\
  alternating (pin_writes PIN_LED_BUTTON (trace w)) = true.
Proof.
  intros Hreach.
  destruct (reachable_lamp_wired w Hreach)
    as (led & rest & _ & _ & Hhd & _ & Halt).
  split; [by exists rest | done].
Qed.

Lemma lamp_pin_never_rewritten_witness :
  (exists rest,
      pin_writes PIN_LED_BUTTON (trace w_print_check) = 0%Z :: rest) /\
  alternating (pin_writes PIN_LED_BUTTON (trace w_print_check)) = true.
Proof.
  apply (lamp_pin_never_rewritten w_print_check).
  exists [Press; Press; Tick 9 env0]. vm_compute. reflexivity.
Defined.

(** ** Handles, renderers and signals *)

Lemma fmap_mark_exited p ps : cmd <$> mark_exited p ps = cmd <$> ps.
Proof.
  unfold mark_exited. destruct (ps !! p) as [pr|] eqn:Hp; [|done].
  rewrite list_fmap_insert. simpl. apply list_insert_id.
  by rewrite list_lookup_fmap, Hp.
Qed.

Lemma good_pid_app js l p : good_pid js p -> good_pid (js ++ l) p.
Proof.
  intros (j & Hj & Hr). exists j. split; [by apply lookup_app_l_Some|done].
Qed.

Lemma wired_no_spawn w w' ks :
  wired w ->
  jobs w' = jobs w ->
  VIDEO_FEED_POPEN w' = VIDEO_FEED_POPEN w ->
  PHOTO_PREVIEW_POPEN w' = PHOTO_PREVIEW_POPEN w ->
  CURRENT_PHOTO_PATH w' = CURRENT_PHOTO_PATH w ->
  targets (trace w') = (targets (trace w) ++ ks)%list ->
  Forall (good_pid (jobs w)) ks ->
  wired w'.
Proof.
  intros (Ha & Hb & Hc & Hd) Hj Hf Hp Hph Ht Hks.
  unfold wired. rewrite Hj, Hf, Hp, Hph, Ht.
  split; [done|]. split; [done|]. split; [done|].
  apply Forall_app. done.
Qed.

Lemma wired_spawn_feed w w' ks :
  wired w ->
  jobs w' = (jobs w ++ [VideoCapture; VideoRender (length (jobs w))])%list ->
  VIDEO_FEED_POPEN w' = Some (length (jobs w)) ->
  PHOTO_PREVIEW_POPEN w' = PHOTO_PREVIEW_POPEN w ->
  CURRENT_PHOTO_PATH w' = CURRENT_PHOTO_PATH w ->
  targets (trace w') = (targets (trace w) ++ ks)%list ->
  Forall (good_pid (jobs w)) ks ->
  wired w'.
Proof.
  intros (Ha & Hb & Hc & Hd) Hj Hf Hp Hph Ht Hks.
  unfold wired. rewrite Hj, Hf, Hp, Hph, Ht.
  assert ((jobs w ++ [VideoCapture; VideoRender (length (jobs w))])%list
          !! length (jobs w) = Some VideoCapture) as Hnew.
  { by rewrite list_lookup_middle. }
  split; [|split; [|split]].
  - intros p Hpp. destruct (Ha p Hpp) as (path & Hl & Hpath).
    exists path. split; [by apply lookup_app_l_Some | done].
  - by intros p [= <-].
  - intros i src Hi. apply lookup_app_Some in Hi as [Hi|[Hge Hi]].
    + destruct (Hc i src Hi) as [-> Hsrc].
      split; [done | by apply lookup_app_l_Some].
    + destruct (i - length (jobs w))%nat as [|[|k]] eqn:Hk; simpl in Hi;
        [done| |done].
      injection Hi as <-. split; [lia | done].
  - apply Forall_app. split; eapply Forall_impl; eauto using good_pid_app.
Qed.

Lemma wired_spawn_preview w w' ks path :
  wired w ->
  jobs w' = (jobs w ++ [PhotoPreview path])%list ->
  VIDEO_FEED_POPEN w' = VIDEO_FEED_POPEN w ->
  PHOTO_PREVIEW_POPEN w' = Some (length (jobs w)) ->
  CURRENT_PHOTO_PATH w' = Some path ->
  targets (trace w') = (targets (trace w) ++ ks)%list ->
  Forall (good_pid (jobs w)) ks ->
  wired w'.
Proof.
  intros (Ha & Hb & Hc & Hd) Hj Hf Hp Hph Ht Hks.
  unfold wired. rewrite Hj, Hf, Hp, Hph, Ht.
  split; [|split; [|split]].
  - intros p [= <-]. exists path. split; [|done].
    by rewrite list_lookup_middle.
  - intros p Hpp. by apply lookup_app_l_Some, Hb.
  - intros i src Hi. apply lookup_snoc_Some in Hi as [[_ Hi]|[_ Hi]]; [|done].
    destruct (Hc i src Hi) as [-> Hsrc].
    split; [done | by apply lookup_app_l_Some].
  - apply Forall_app. split; eapply Forall_impl; eauto using good_pid_app.
Qed.

Lemma targets_app l1 l2 : targets (l1 ++ l2) = (targets l1 ++ targets l2)%list.
Proof. apply omap_app. Qed.

Lemma targets_lamp_effects b w : targets (lamp_effects b w) = [].
Proof.
  unfold lamp_effects. destruct (BUTTON_LED w) as [led|]; [|done].
  by destruct (Bool.eqb _ _).
Qed.

Lemma good_pid_holds kind w h p :
  (forall j, kind j = true -> is_render j = false) ->
  holds kind h (procs w) -> h = Some p -> good_pid (jobs w) p.
Proof.
  intros Hkind (q & pr & -> & Hpr & Hk) [= ->].
  exists (cmd pr). split; [|by apply Hkind].
  unfold jobs. by rewrite list_lookup_fmap, Hpr.
Qed.

Lemma good_pid_feed w p :
  holds is_feed (VIDEO_FEED_POPEN w) (procs w) ->
  VIDEO_FEED_POPEN w = Some p -> good_pid (jobs w) p.
Proof. apply good_pid_holds. by intros []. Qed.

Lemma good_pid_preview w p :
  holds is_preview (PHOTO_PREVIEW_POPEN w) (procs w) ->
  PHOTO_PREVIEW_POPEN w = Some p -> good_pid (jobs w) p.
Proof. apply good_pid_holds. by intros []. Qed.

Ltac wired_side :=
  unfold jobs; light_simpl;
  rewrite ?fmap_app, ?fmap_mark_exited, ?length_mark_exited, ?length_fmap,
    ?targets_app, ?targets_lamp_effects;
  simpl;
  rewrite ?fmap_mark_exited, ?length_mark_exited, ?app_nil_r;
  repeat (rewrite <- app_assoc; simpl);
  try reflexivity.

Lemma wired_step e w w' :
  inv w -> wired w -> step e w = Returned tt w' -> wired w'.
Proof.
  intros Hinv Hw Hstep. pose proof (step_cases e w Hinv) as Hc.
  rewrite Hstep in Hc. destruct Hinv as [_ Hs]. unfold supervised in Hs.
  inversion Hc as [dt env Hst|dt env p Hst Hlt Hp|dt env p pr Hst
                  |dt env p pr Hst
                  |dt env Hst|dt env p Hst Hlt Hp|dt env p Hst|dt env Hst
                  |dt env p Hst Hlt Hp|Hst|Hst|Hst|p Hst Hp|q];
    subst; rewrite Hst in Hs || idtac.
  - apply (wired_no_spawn w _ [] Hw); wired_side. constructor.
  - apply (wired_no_spawn w _ [p; p] Hw); wired_side.
    destruct Hs as (Hh & _).
    repeat constructor; by apply good_pid_feed.
  - apply (wired_no_spawn w _ [] Hw); wired_side. constructor.
  - apply (wired_no_spawn w _ [] Hw); wired_side. constructor.
  - apply (wired_spawn_preview w _ [p; p] (photo_name env) Hw); wired_side.
    destruct Hs as (Hh & _).
    repeat constructor; by apply good_pid_feed.
  - apply (wired_no_spawn w _ [] Hw); wired_side. constructor.
  - apply (wired_spawn_feed w _ [p; p] Hw); wired_side.
    destruct Hs as (Hh & _).
    repeat constructor; by apply good_pid_preview.
  - apply (wired_spawn_feed w _ [] Hw); wired_side. constructor.
  - apply (wired_no_spawn w _ [] Hw); wired_side. constructor.
  - apply (wired_no_spawn w' w' [] Hw); wired_side. constructor.
  - apply (wired_spawn_feed w _ [p; p] Hw); wired_side.
    destruct Hs as (Hh & _).
    repeat constructor; by apply good_pid_preview.
  - apply (wired_no_spawn w _ [] Hw); wired_side. constructor.
Qed.

Lemma wired_boot : wired boot.
Proof.
  split; [done|]. split; [done|]. split; [by intros [|i] src|].
  vm_compute. constructor.
Qed.

Lemma reachable_wired w : reachable w -> wired w.
Proof.
  revert w. apply reachable_induction; [apply wired_boot|].
  intros w e w' Hreach Hw Hstep.
  eapply wired_step; [by apply reachable_inv | done | done].
Qed.

Lemma jobs_lookup w i j :
  jobs w !! i = Some j -> exists pr, procs w !! i = Some pr /\ cmd pr = j.
Proof.
  unfold jobs. rewrite list_lookup_fmap.
  destruct (procs w !! i) as [pr|]; [|done]. intros [= <-]. by exists pr.
Qed.

(** X7: in every reachable world the preview handle, once set, refers to
    the feh process that shows the stored photo path; in PrintCheck the
    handle is set, and any preview that is alive is that process.  What is
    on screen during the print check is the photo that is about to be
    printed. *)
Theorem preview_shows_stored_photo (w : world) :
  reachable w ->
  (forall p,
      PHOTO_PREVIEW_POPEN w = Some p ->
      exists path pr,
        procs w !! p = Some pr /\
        cmd pr = PhotoPreview path /\
        CURRENT_PHOTO_PATH w = Some path) /\
  (CURRENT_STATE w = PRINT_CHECK ->
   exists p,
     PHOTO_PREVIEW_POPEN w = Some p /\
     forall i pr,
       procs w !! i = Some pr -> live is_preview pr = true -> i = p).
Proof.
  intros Hreach. destruct (reachable_wired w Hreach) as (Ha & _).
  split.
  - intros p Hp. destruct (Ha p Hp) as (path & Hj & Hpath).
    destruct (jobs_lookup _ _ _ Hj) as (pr & Hpr & Hcmd). by exists path, pr.
  - intros Hst. destruct (reachable_inv _ Hreach) as [_ Hs].
    unfold supervised in Hs. rewrite Hst in Hs.
    destruct Hs as ((p & pr & Hp & _) & Hsole & _).
    exists p. split; [done|]. intros i pr' Hi Hlive.
    specialize (Hsole i pr' Hi Hlive). rewrite Hp in Hsole.
    by injection Hsole.
Qed.

Lemma preview_shows_stored_photo_witness :
  (forall p,
      PHOTO_PREVIEW_POPEN w_print_check = Some p ->
      exists path pr,
        procs w_print_check !! p = Some pr /\
        cmd pr = PhotoPreview path /\
        CURRENT_PHOTO_PATH w_print_check = Some path) /\
  (CURRENT_STATE w_print_check = PRINT_CHECK ->
   exists p,
     PHOTO_PREVIEW_POPEN w_print_check = Some p /\
     forall i pr,
       procs w_print_check !! i = Some pr ->
       live is_preview pr = true -> i = p).
Proof.
  apply (preview_shows_stored_photo w_print_check).
  exists [Press; Press; Tick 9 env0]. vm_compute. reflexivity.
Defined.

(** X8: over any run, every process the program has sent [terminate()] to
    or waited for is a gphoto2 feed or a feh preview, never an ffmpeg
    renderer; and every renderer in the process table sits right after the
    gphoto2 feed whose output it reads.  The renderers are left to end by
    themselves when their feed is gone. *)
Theorem renderer_never_signalled (w : world) :
  reachable w ->
  (forall e p,
      e ∈ trace w -> target e = Some p ->
      exists pr, procs w !! p = Some pr /\ is_render (cmd pr) = false) /\
  (forall i pr src,
      procs w !! i = Some pr -> cmd pr = VideoRender src ->
      i = S src /\
      exists pr', procs w !! src = Some pr' /\ cmd pr' = VideoCapture).
Proof.
  intros Hreach. destruct (reachable_wired w Hreach) as (_ & _ & Hc & Hd).
  split.
  - intros e p He Ht.
    assert (p ∈ targets (trace w)) as Hin.
    { apply list_elem_of_omap. by exists e. }
    rewrite Forall_forall in Hd. destruct (Hd p Hin) as (j & Hj & Hr).
    destruct (jobs_lookup _ _ _ Hj) as (pr & Hpr & <-). by exists pr.
  - intros i pr src Hi Hcmd.
    assert (jobs w !! i = Some (VideoRender src)) as Hj.
    { unfold jobs. by rewrite list_lookup_fmap, Hi, <- Hcmd. }
    destruct (Hc i src Hj) as [-> Hsrc]. split; [done|].
    by apply jobs_lookup.
Qed.

Lemma renderer_never_signalled_witness :
  (forall e p,
      e ∈ trace w_printed -> target e = Some p ->
      exists pr, procs w_printed !! p = Some pr /\
                 is_render (cmd pr) = false) /\
  (forall i pr src,
      procs w_printed !! i = Some pr -> cmd pr = VideoRender src ->
      i = S src /\
      exists pr', procs w_printed !! src = Some pr' /\
                  cmd pr' = VideoCapture).
Proof.
  apply (renderer_never_signalled w_printed).
  exists [Press; Press; Tick 9 env0; Tick 11 env0]. vm_compute. reflexivity.
Defined.

(** ** A capture that fails *)

(** X9: when the countdown runs out and gphoto2 exits with a status other
    than 0, the tick raises [CalledProcessError] with that status.  By
    then the feed has been terminated and waited for and the capture has
    been tried, and nothing else has happened: the state is still
    Countdown with its entry time, the stored path, the preview handle and
    the lamp are as before, and neither a feed nor a preview is alive. *)
Theorem failed_capture_aborts (dt : Q) (env : capture_env) (w : world) :
  reachable w ->
  CURRENT_STATE w = COUNTDOWN ->
  COUNTDOWN_DURATION < TOTAL_TIME w + dt - STATE_START w ->
  gphoto2_returncode env <> 0%Z ->
  exists w' p,
    update dt env w = Raised (CalledProcessError (gphoto2_returncode env)) w' /\
    VIDEO_FEED_POPEN w = Some p /\
    emitted w w' =
      [ETerminate p; EWait p; ECheckCall (photo_argv (photo_name env))] /\
    CURRENT_STATE w' = COUNTDOWN /\
    STATE_START w' = STATE_START w /\
    TOTAL_TIME w' = TOTAL_TIME w + dt /\
    CURRENT_PHOTO_PATH w' = CURRENT_PHOTO_PATH w /\
    PHOTO_PREVIEW_POPEN w' = PHOTO_PREVIEW_POPEN w /\
    BUTTON_LED w' = BUTTON_LED w /\
    live_count is_feed (procs w') = 0%nat /\
    live_count is_preview (procs w') = 0%nat.
Proof.
  intros Hreach Hst Hlt Hrc. destruct (reachable_inv _ Hreach) as [_ Hs].
  unfold supervised in Hs. rewrite Hst in Hs.
  destruct Hs as ((p & pr & Hp & _) & Hsole & Hq).
  eexists. exists p. split.
  { apply update_via_raise.
    by apply (transition_countdown_fail env (ticked dt w) p). }
  split; [done|]. split; [emitted_list|]. simpl.
  repeat (split; [done|]). split.
  - apply live_count_quiet, sole_mark_quiet. by rewrite <- Hp.
  - by apply live_count_quiet, quiet_mark.
Qed.

Lemma failed_capture_aborts_witness :
  exists w' p,
    update 9 env_fail w_countdown
    = Raised (CalledProcessError (gphoto2_returncode env_fail)) w' /\
    VIDEO_FEED_POPEN w_countdown = Some p /\
    emitted w_countdown w' =
      [ETerminate p; EWait p; ECheckCall (photo_argv (photo_name env_fail))] /\
    CURRENT_STATE w' = COUNTDOWN /\
    STATE_START w' = STATE_START w_countdown /\
    TOTAL_TIME w' = TOTAL_TIME w_countdown + 9 /\
    CURRENT_PHOTO_PATH w' = CURRENT_PHOTO_PATH w_countdown /\
    PHOTO_PREVIEW_POPEN w' = PHOTO_PREVIEW_POPEN w_countdown /\
    BUTTON_LED w' = BUTTON_LED w_countdown /\
    live_count is_feed (procs w') = 0%nat /\
    live_count is_preview (procs w') = 0%nat.
Proof.
  apply (failed_capture_aborts 9 env_fail w_countdown).
  - exists [Press; Press]. vm_compute. reflexivity.
  - vm_compute. reflexivity.
  - vm_compute. reflexivity.
  - vm_compute. discriminate.
Defined.

(** ** Before the board is set up *)

(** X12: with no [LED] object (the module as imported, [init_board] not
    yet run) [update] never returns: whatever the state, the call ends in
    an exception, and in Sleep it is the [AttributeError] of
    [BUTTON_LED.on()]/[off()] on [None], raised after the clock has
    advanced. *)
Theorem update_without_board_raises (dt : Q) (env : capture_env) (w : world) :
  BUTTON_LED w = None ->
  raises (update dt env w) = true /\
  (CURRENT_STATE w = SLEEP ->
   update dt env w = Raised AttributeError (ticked dt w)).
Proof.
  intros Hled. split.
  - py_exec w. py_cases; reflexivity.
  - intros Hst. py_exec w. py_cases; reflexivity.
Qed.

Lemma update_without_board_raises_witness :
  raises (update 1 env0 module_globals) = true /\
  (CURRENT_STATE module_globals = SLEEP ->
   update 1 env0 module_globals
   = Raised AttributeError (ticked 1 module_globals)).
Proof.
  apply (update_without_board_raises 1 env0 module_globals).
  reflexivity.
Defined.

(** ** The name of a photo *)

Lemma all_digits_string_of_uint d :
  all_digits (NilEmpty.string_of_uint d) = true.
Proof. induction d; simpl; done. Qed.

Lemma all_digits_str n : all_digits (str n) = true.
Proof. apply all_digits_string_of_uint. Qed.

Lemma str_inj n m : str n = str m -> n = m.
Proof.
  unfold str. intros H. apply Unsigned.to_uint_inj.
  assert (Some (Nat.to_uint n) = Some (Nat.to_uint m)) as [= ->]; [|done].
  by rewrite <- !NilEmpty.usu, H.
Qed.

Lemma split_at_separator c s1 s2 r1 r2 :
  is_digit c = false ->
  all_digits s1 = true -> all_digits s2 = true ->
  (s1 ++ String c r1)%string = (s2 ++ String c r2)%string ->
  s1 = s2 /\ r1 = r2.
Proof.
  intros Hc. revert s2.
  induction s1 as [|a s1 IH]; intros [|b s2] H1 H2 Heq; simpl in *.
  - by injection Heq.
  - injection Heq as -> _. apply andb_true_iff in H2 as [H2 _]. congruence.
  - injection Heq as <- _. apply andb_true_iff in H1 as [H1 _]. congruence.
  - injection Heq as <- Heq.
    apply andb_true_iff in H1 as [_ H1]. apply andb_true_iff in H2 as [_ H2].
    destruct (IH s2 H1 H2 Heq) as [-> ->]. done.
Qed.

(** X10: two captures get the same file name exactly when their day of
    the month, hour, minute and second agree.  Within those four numbers
    the name is unambiguous; the month and the year are not part of it. *)
Theorem photo_name_collision (env1 env2 : capture_env) :
  photo_name env1 = photo_name env2 <->
  tm_mday env1 = tm_mday env2 /\
  tm_hour env1 = tm_hour env2 /\
  tm_min env1 = tm_min env2 /\
  tm_sec env1 = tm_sec env2.
Proof.
  unfold photo_name. split.
  - intros H.
    apply split_at_separator in H as [Hd H];
      [|done|apply all_digits_str|apply all_digits_str].
    apply split_at_separator in H as [Hh H];
      [|done|apply all_digits_str|apply all_digits_str].
    apply split_at_separator in H as [Hm H];
      [|done|apply all_digits_str|apply all_digits_str].
    apply split_at_separator in H as [Hs _];
      [|done|apply all_digits_str|apply all_digits_str].
    auto using str_inj.
  - intros (-> & -> & -> & ->). reflexivity.
Qed.

(** ** The entry time against the clock *)

Lemma step_STATE_START e w :
  STATE_START (world_of (step e w)) = TOTAL_TIME (world_of (step e w)) \/
  STATE_START (world_of (step e w)) = STATE_START w.
Proof.
  destruct e as [dt env| |q]; py_exec w; py_cases; cbv [world_of];
    first [ by left | by right ].
Qed.

Lemma main_snoc evs e :
  main (evs ++ [e]) =
  match main evs with
  | Returned _ w => step e w
  | Raised x w => Raised x w
  end.
Proof. rewrite !main_run. apply run_snoc. Qed.

(** X11: as long as no tick goes back in time, the entry time of the
    current state is never negative and never ahead of the clock: the time
    spent in a state, which all the timeouts are tested on, is never
    negative. *)
Theorem elapsed_never_negative (evs : list event) (w : world) :
  forallb nonneg_tick evs = true ->
  main evs = Returned tt w ->
  0 <= STATE_START w /\ STATE_START w <= TOTAL_TIME w.
Proof.
  revert w. induction evs as [|e evs IH] using rev_ind; intros w Hnn Hmain.
  - rewrite main_run in Hmain. simpl in Hmain. injection Hmain as <-.
    vm_compute. split; discriminate.
  - rewrite forallb_app in Hnn. apply andb_true_iff in Hnn as [Hevs He].
    simpl in He. rewrite andb_true_r in He.
    rewrite main_snoc in Hmain.
    destruct (main evs) as [[] w0|] eqn:Hm0; [|done].
    destruct (IH w0 Hevs eq_refl) as [H0 H1].
    pose proof (step_STATE_START e w0) as Hss.
    pose proof (step_TOTAL_TIME e w0) as Htt.
    rewrite Hmain in Hss, Htt. simpl in Hss, Htt.
    assert (TOTAL_TIME w0 <= TOTAL_TIME w) as Hmono.
    { rewrite Htt. destruct e as [dt env| |q]; try apply Qle_refl.
      simpl in He. apply Qle_bool_iff in He. lra. }
    destruct Hss as [->| ->].
    + split; [lra | apply Qle_refl].
    + split; [done | lra].
Qed.

Lemma elapsed_never_negative_witness :
  0 <= STATE_START w_print_check /\
  STATE_START w_print_check <= TOTAL_TIME w_print_check.
Proof.
  apply (elapsed_never_negative [Press; Press; Tick 9 env0] w_print_check).
  - vm_compute. reflexivity.
  - vm_compute. reflexivity.
Defined.

(** ** A whole session *)

Lemma filter_gpio (f : effect -> bool) l :
  (forall c, f (EGpio c) = false) ->
  forallb is_gpio l = true -> List.filter f l = [].
Proof.
  intros Hf. induction l as [|e l IH]; [done|]. simpl.
  intros [He Hl]%andb_true_iff. destruct e; try done.
  rewrite Hf. by apply IH.
Qed.

Lemma idle_entered_live_count b st w :
  quiet is_feed (procs w) ->
  live_count is_feed
    (procs (light b (set_CURRENT_STATE st (timer_reset (feed_started w)))))
  = 1%nat.
Proof.
  intros Hq. rewrite light_procs. by apply (feed_started_live_count w).
Qed.

Lemma run_cons_Returned e evs w w1 :
  step e w = Returned tt w1 -> run (e :: evs) w = run evs w1.
Proof. intros H. by rewrite run_cons, H. Qed.

Lemma press_sleep_summary w :
  CURRENT_STATE w = SLEEP ->
  exists w1 l,
    step Press w = Returned tt w1 /\
    CURRENT_STATE w1 = IDLE /\
    TOTAL_TIME w1 = TOTAL_TIME w /\
    STATE_START w1 = TOTAL_TIME w /\
    trace w1 = (trace w ++ l)%list /\
    captures l = 0%nat /\
    List.filter is_print_request l = [].
Proof.
  intros Hst. eexists. eexists.
  split; [by apply button_event_sleep|]. simpl.
  split; [done|]. split; [done|]. split; [done|].
  split; [by rewrite <- (app_assoc (A:=effect))|]. done.
Qed.

Lemma press_idle_summary w :
  CURRENT_STATE w = IDLE ->
  exists w2,
    step Press w = Returned tt w2 /\
    CURRENT_STATE w2 = COUNTDOWN /\
    TOTAL_TIME w2 = TOTAL_TIME w /\
    STATE_START w2 = TOTAL_TIME w /\
    trace w2 = trace w.
Proof.
  intros Hst. eexists. split; [by apply button_event_idle|]. done.
Qed.

Lemma countdown_fire_summary dt env w :
  inv w ->
  CURRENT_STATE w = COUNTDOWN ->
  COUNTDOWN_DURATION < TOTAL_TIME w + dt - STATE_START w ->
  gphoto2_returncode env = 0%Z ->
  exists w3 l,
    step (Tick dt env) w = Returned tt w3 /\
    CURRENT_STATE w3 = PRINT_CHECK /\
    TOTAL_TIME w3 = TOTAL_TIME w + dt /\
    STATE_START w3 = TOTAL_TIME w + dt /\
    CURRENT_PHOTO_PATH w3 = Some (photo_name env) /\
    trace w3 = (trace w ++ l)%list /\
    captures l = 1%nat /\
    List.filter is_print_request l = [].
Proof.
  intros [Hled Hs] Hst Hlt Hrc. unfold supervised in Hs. rewrite Hst in Hs.
  destruct Hs as ((p & pr & Hp & _) & _).
  eexists. eexists.
  split; [by apply (update_countdown_fire dt env w p)|]. light_simpl.
  split; [done|]. split; [done|]. split; [done|]. split; [done|].
  split.
  { repeat (rewrite <- (app_assoc (A:=effect)); simpl). reflexivity. }
  split.
  - change (captures
              (ETerminate p :: EWait p
               :: ECheckCall (photo_argv (photo_name env))
               :: EStdout ("took photo as " ++ photo_name env ++ ".")
               :: EPopen (length (mark_exited p (procs w)))
                    (PhotoPreview (photo_name env))
               :: lamp_effects true
                    (set_CURRENT_STATE PRINT_CHECK
                       (timer_reset
                          (preview_started (photo_name env)
                             (set_CURRENT_PHOTO_PATH (Some (photo_name env))
                                (photographed env
                                   (killed p (ticked dt w))))))))
            = 1%nat).
    unfold captures. simpl. f_equal.
    by rewrite (filter_gpio is_capture _ (fun _ => eq_refl)
                  (lamp_effects_gpio _ _)).
  - simpl.
    by rewrite (filter_gpio is_print_request _ (fun _ => eq_refl)
                  (lamp_effects_gpio _ _)).
Qed.

Lemma print_check_fire_summary dt env w :
  inv w ->
  CURRENT_STATE w = PRINT_CHECK ->
  PRINT_CHECK_DURATION < TOTAL_TIME w + dt - STATE_START w ->
  exists w4 l,
    step (Tick dt env) w = Returned tt w4 /\
    CURRENT_STATE w4 = IDLE /\
    TOTAL_TIME w4 = TOTAL_TIME w + dt /\
    STATE_START w4 = TOTAL_TIME w + dt /\
    CURRENT_PHOTO_PATH w4 = CURRENT_PHOTO_PATH w /\
    lamp w4 = Some true /\
    trace w4 = (trace w ++ l)%list /\
    captures l = 0%nat /\
    List.filter is_print_request l
    = [EPrintRequest (CURRENT_PHOTO_PATH w)] /\
    live_count is_feed (procs w4) = 1%nat.
Proof.
  intros [Hled Hs] Hst Hlt. unfold supervised in Hs. rewrite Hst in Hs.
  destruct Hs as ((p & pr & Hp & _) & _ & Hq & _).
  eexists. eexists.
  split; [by apply (update_print_check_fire dt env w p)|].
  split; [by light_simpl|]. split; [by light_simpl|].
  split; [by light_simpl|]. split; [by light_simpl|].
  split; [by apply lamp_light|].
  split.
  { light_simpl. repeat (rewrite <- (app_assoc (A:=effect)); simpl).
    reflexivity. }
  split; [|split].
  - unfold captures. simpl.
    by rewrite (filter_gpio is_capture _ (fun _ => eq_refl)
                  (lamp_effects_gpio _ _)).
  - simpl.
    by rewrite (filter_gpio is_print_request _ (fun _ => eq_refl)
                  (lamp_effects_gpio _ _)).
  - apply idle_entered_live_count.
    change (quiet is_feed (mark_exited p (procs w))). by apply quiet_mark.
Qed.

(** X13: from any reachable world in Sleep, a press, a second press, a
    tick of more than [COUNTDOWN_DURATION] (the capture succeeding) and a
    tick of more than [PRINT_CHECK_DURATION] all return, and end in Idle:
    the clock has advanced by the two ticks and the timer is reset, the
    lamp is lit, the stored path is the name of the photo taken, one
    capture was made and one print was requested, for that photo, one feed
    is alive and no preview. *)
Theorem photo_session
  (dt1 dt2 : Q) (env1 env2 : capture_env) (w : world) :
  reachable w ->
  CURRENT_STATE w = SLEEP ->
  COUNTDOWN_DURATION < dt1 ->
  PRINT_CHECK_DURATION < dt2 ->
  gphoto2_returncode env1 = 0%Z ->
  exists w',
    run [Press; Press; Tick dt1 env1; Tick dt2 env2] w = Returned tt w' /\
    CURRENT_STATE w' = IDLE /\
    CURRENT_PHOTO_PATH w' = Some (photo_name env1) /\
    TOTAL_TIME w' = TOTAL_TIME w + dt1 + dt2 /\
    STATE_START w' = TOTAL_TIME w' /\
    lamp w' = Some true /\
    captures (emitted w w') = 1%nat /\
    List.filter is_print_request (emitted w w')
    = [EPrintRequest (Some (photo_name env1))] /\
    live_count is_feed (procs w') = 1%nat /\
    live_count is_preview (procs w') = 0%nat.
Proof.
  intros Hreach Hst Hdt1 Hdt2 Hrc.
  destruct (press_sleep_summary w Hst)
    as (w1 & l1 & H1 & Hst1 & Ht1 & Hs1 & Htr1 & Hc1 & Hp1).
  pose proof (reachable_step _ _ _ Hreach H1) as Hreach1.
  destruct (press_idle_summary w1 Hst1) as (w2 & H2 & Hst2 & Ht2 & Hs2 & Htr2).
  pose proof (reachable_step _ _ _ Hreach1 H2) as Hreach2.
  destruct (countdown_fire_summary dt1 env1 w2 (reachable_inv _ Hreach2) Hst2)
    as (w3 & l3 & H3 & Hst3 & Ht3 & Hs3 & Hph3 & Htr3 & Hc3 & Hp3);
    [rewrite Ht2, Hs2; lra | done |].
  pose proof (reachable_step _ _ _ Hreach2 H3) as Hreach3.
  destruct (print_check_fire_summary dt2 env2 w3 (reachable_inv _ Hreach3)
              Hst3)
    as (w4 & l4 & H4 & Hst4 & Ht4 & Hs4 & Hph4 & Hlamp4 & Htr4 & Hc4 & Hp4 &
        Hlive4);
    [rewrite Ht3, Hs3; lra |].
  pose proof (reachable_step _ _ _ Hreach3 H4) as Hreach4.
  exists w4. split.
  { rewrite (run_cons_Returned _ _ _ _ H1), (run_cons_Returned _ _ _ _ H2),
      (run_cons_Returned _ _ _ _ H3), (run_cons_Returned _ _ _ _ H4).
    reflexivity. }
  split; [done|]. split; [by rewrite Hph4|].
  split; [by rewrite Ht4, Ht3, Ht2, Ht1|].
  split; [by rewrite Hs4, Ht4|]. split; [done|].
  assert (trace w4 = (trace w ++ l1 ++ l3 ++ l4)%list) as Htr.
  { rewrite Htr4, Htr3, Htr2, Htr1.
    by rewrite <- !(app_assoc (A:=effect)). }
  rewrite (emitted_app _ _ _ Htr).
  split; [by rewrite !captures_app, Hc1, Hc3, Hc4|].
  split; [by rewrite !List.filter_app, Hp1, Hp3, Hp4, Hph3|].
  split; [done|].
  destruct (reachable_inv _ Hreach4) as [_ Hs]. unfold supervised in Hs.
  rewrite Hst4 in Hs. apply live_count_quiet, Hs.
Qed.

Lemma photo_session_witness :
  exists w',
    run [Press; Press; Tick 9 env0; Tick 11 env0] boot = Returned tt w' /\
    CURRENT_STATE w' = IDLE /\
    CURRENT_PHOTO_PATH w' = Some (photo_name env0) /\
    TOTAL_TIME w' = TOTAL_TIME boot + 9 + 11 /\
    STATE_START w' = TOTAL_TIME w' /\
    lamp w' = Some true /\
    captures (emitted boot w') = 1%nat /\
    List.filter is_print_request (emitted boot w')
    = [EPrintRequest (Some (photo_name env0))] /\
    live_count is_feed (procs w') = 1%nat /\
    live_count is_preview (procs w') = 0%nat.
Proof.
  apply (photo_session 9 11 env0 env0 boot).
  - exists []. vm_compute. reflexivity.
  - vm_compute. reflexivity.
  - vm_compute. reflexivity.
  - vm_compute. reflexivity.
  - vm_compute. reflexivity.
Defined.

(** ** The lamp after a tick *)

(** C7, as stated, fails: a tick that aborts does not recompute the lamp.
    Woken up by a press (which does not touch the lamp) with the feed gone,
    the first tick raises in Idle and leaves the lamp dark, cached flag and
    pin alike, though the policy of Idle is lit. *)
Lemma lamp_left_dark_by_fatal_tick :
  reachable w_idle_dead /\
  CURRENT_STATE w_idle_dead = IDLE /\
  update 1 env0 w_idle_dead
  = Raised (RuntimeError "Videofeed died unexpectedly.")
      (ticked 1 w_idle_dead) /\
  CURRENT_STATE (ticked 1 w_idle_dead) = IDLE /\
  lamp_policy IDLE (TOTAL_TIME (ticked 1 w_idle_dead)) = true /\
  lamp (ticked 1 w_idle_dead) = Some false /\
  last (pin_writes PIN_LED_BUTTON (trace (ticked 1 w_idle_dead)))
  = Some 0%Z /\
  ~ (forall dt env w,
        reachable w ->
        lamp (world_of (update dt env w))
        = Some (lamp_policy (CURRENT_STATE (world_of (update dt env w)))
                  (TOTAL_TIME (world_of (update dt env w))))).
Proof.
  assert (reachable w_idle_dead) as Hr.
  { exists [Press; ProcessExit 0]. vm_compute. reflexivity. }
  split; [exact Hr|]. split; [vm_compute; reflexivity|].
  split; [vm_compute; reflexivity|]. split; [vm_compute; reflexivity|].
  split; [vm_compute; reflexivity|]. split; [vm_compute; reflexivity|].
  split; [vm_compute; reflexivity|].
  intros Hall. specialize (Hall 1 env0 w_idle_dead Hr).
  vm_compute in Hall. discriminate.
Qed.

(** C7, amended: from a reachable world a tick that returns leaves the
    lamp as the policy of the state it ends in demands, in the cached flag
    and on the pin: the level last written to the button lamp pin is 1 in
    Idle and PrintCheck, 0 in Countdown, and in Sleep 1 exactly when
    [TOTAL_TIME mod BLINK_PERIOD > BLINK_PERIOD / 2].  A tick that does not
    return is one of the two fatal aborts (the feed found dead in Idle, a
    failed capture at the end of the countdown) and leaves the lamp, flag
    and pin, as it was before the call.  The blink depends on the total
    time only: at [k + r] seconds with [0 <= r < 1] it is lit iff
    [r > 1/2]. *)
Theorem lamp_pin_follows_policy (dt : Q) (env : capture_env) (w : world) :
  reachable w ->
  match update dt env w with
  | Returned _ w' =>
      lamp w' = Some (lamp_policy (CURRENT_STATE w') (TOTAL_TIME w')) /\
      last (pin_writes PIN_LED_BUTTON (trace w'))
      = Some (if lamp_policy (CURRENT_STATE w') (TOTAL_TIME w')
              then 1%Z else 0%Z) /\
      match CURRENT_STATE w' with
      | SLEEP =>
          last (pin_writes PIN_LED_BUTTON (trace w')) = Some 1%Z <->
          BLINK_PERIOD / 2 < py_mod (TOTAL_TIME w') BLINK_PERIOD
      | IDLE | PRINT_CHECK =>
          last (pin_writes PIN_LED_BUTTON (trace w')) = Some 1%Z
      | COUNTDOWN =>
          last (pin_writes PIN_LED_BUTTON (trace w')) = Some 0%Z
      end
  | Raised x w' =>
      ((CURRENT_STATE w = IDLE /\ video_feed_active w = false /\
        x = RuntimeError "Videofeed died unexpectedly.") \/
       (CURRENT_STATE w = COUNTDOWN /\ gphoto2_returncode env <> 0%Z /\
        x = CalledProcessError (gphoto2_returncode env))) /\
      BUTTON_LED w' = BUTTON_LED w /\
      pin_writes PIN_LED_BUTTON (trace w')
      = pin_writes PIN_LED_BUTTON (trace w)
  end /\
  forall (k : Z) (r : Q),
    0 <= r -> r < 1 ->
    (lamp_policy SLEEP (inject_Z k + r) = true <-> 1 # 2 < r).
Proof.
  intros Hreach. apply reachable_inv in Hreach as Hinv.
  split; [|apply lamp_policy_blink].
  destruct (update dt env w) as [[] w'|x w'] eqn:Hup.
  - assert (reachable w') as Hreach'
        by (by apply (reachable_step w (Tick dt env) w')).
    destruct (reachable_lamp_wired w' Hreach')
      as (led & rest & Hled & _ & _ & Hlast & _).
    apply update_Returned in Hup as (w2 & _ & [Hled2 _] & ->); [|done].
    set (b := lamp_policy (CURRENT_STATE w2) (TOTAL_TIME w2)) in *.
    assert (lamp (light b w2) = Some b) as Hlamp by (by apply lamp_light).
    assert (is_on led = b) as Hb.
    { unfold lamp in Hlamp. rewrite Hled in Hlamp. simpl in Hlamp.
      by injection Hlamp. }
    rewrite Hb in Hlast. unfold level in Hlast.
    rewrite light_CURRENT_STATE, light_TOTAL_TIME. fold b.
    split; [done|]. split; [done|]. rewrite Hlast. subst b.
    destruct (CURRENT_STATE w2); simpl; try done.
    rewrite <- Qgtb_true.
    destruct (Qgtb _ _); split; (done || discriminate).
  - apply update_Raised in Hup; [|done].
    apply transition_Raised in Hup; [|by apply inv_accumulate].
    destruct Hup as [(Hst & _ & Hdead & -> & ->)|
                     (Hst & _ & Hrc & -> & p & _ & ->)].
    + split; [by left|]. done.
    + split; [by right|]. split; [done|]. simpl.
      rewrite !pin_writes_app. simpl. by rewrite !app_nil_r.
Qed.

Lemma lamp_pin_follows_policy_witness :
  (
    match update 1 env0 w_idle with
    | Returned _ w' =>
        lamp w' = Some (lamp_policy (CURRENT_STATE w') (TOTAL_TIME w')) /\
        last (pin_writes PIN_LED_BUTTON (trace w'))
        = Some (if lamp_policy (CURRENT_STATE w') (TOTAL_TIME w')
                then 1%Z else 0%Z) /\
        match CURRENT_STATE w' with
        | SLEEP =>
            last (pin_writes PIN_LED_BUTTON (trace w')) = Some 1%Z <->
            BLINK_PERIOD / 2 < py_mod (TOTAL_TIME w') BLINK_PERIOD
        | IDLE | PRINT_CHECK =>
            last (pin_writes PIN_LED_BUTTON (trace w')) = Some 1%Z
        | COUNTDOWN =>
            last (pin_writes PIN_LED_BUTTON (trace w')) = Some 0%Z
        end
    | Raised x w' =>
        ((CURRENT_STATE w_idle = IDLE /\ video_feed_active w_idle = false /\
          x = RuntimeError "Videofeed died unexpectedly.") \/
         (CURRENT_STATE w_idle = COUNTDOWN /\
          gphoto2_returncode env0 <> 0%Z /\
          x = CalledProcessError (gphoto2_returncode env0))) /\
        BUTTON_LED w' = BUTTON_LED w_idle /\
        pin_writes PIN_LED_BUTTON (trace w')
        = pin_writes PIN_LED_BUTTON (trace w_idle)
    end /\
    forall (k : Z) (r : Q),
      0 <= r -> r < 1 ->
      (lamp_policy SLEEP (inject_Z k + r) = true <-> 1 # 2 < r)
  ) /\
  (
    match update 1 env0 w_idle_dead with
    | Returned _ w' =>
        lamp w' = Some (lamp_policy (CURRENT_STATE w') (TOTAL_TIME w')) /\
        last (pin_writes PIN_LED_BUTTON (trace w'))
        = Some (if lamp_policy (CURRENT_STATE w') (TOTAL_TIME w')
                then 1%Z else 0%Z) /\
        match CURRENT_STATE w' with
        | SLEEP =>
            last (pin_writes PIN_LED_BUTTON (trace w')) = Some 1%Z <->
            BLINK_PERIOD / 2 < py_mod (TOTAL_TIME w') BLINK_PERIOD
        | IDLE | PRINT_CHECK =>
            last (pin_writes PIN_LED_BUTTON (trace w')) = Some 1%Z
        | COUNTDOWN =>
            last (pin_writes PIN_LED_BUTTON (trace w')) = Some 0%Z
        end
    | Raised x w' =>
        ((CURRENT_STATE w_idle_dead = IDLE /\
          video_feed_active w_idle_dead = false /\
          x = RuntimeError "Videofeed died unexpectedly.") \/
         (CURRENT_STATE w_idle_dead = COUNTDOWN /\
          gphoto2_returncode env0 <> 0%Z /\
          x = CalledProcessError (gphoto2_returncode env0))) /\
        BUTTON_LED w' = BUTTON_LED w_idle_dead /\
        pin_writes PIN_LED_BUTTON (trace w')
        = pin_writes PIN_LED_BUTTON (trace w_idle_dead)
    end /\
    forall (k : Z) (r : Q),
      0 <= r -> r < 1 ->
      (lamp_policy SLEEP (inject_Z k + r) = true <-> 1 # 2 < r)
  ).
Proof.
  split.
  - apply (lamp_pin_follows_policy 1 env0 w_idle).
    exists [Press]. vm_compute. reflexivity.
  - apply (lamp_pin_follows_policy 1 env0 w_idle_dead).
    exists [Press; ProcessExit 0]. vm_compute. reflexivity.
Defined.
